(** * Order lifecycle of the fuel-delivery server

    A shallow embedding of the Express route handlers of
    [server/routes/orders.js], [server/routes/payments.js],
    [server/routes/admin.js] and of the Mongoose models they mutate
    ([models/Order.js], [models/User.js]), followed by the properties of the
    order lifecycle.

    Conventions of the embedding:
    - the two collections are finite maps from document id to document;
    - a handler is a function from the store to an [Outcome]: the HTTP
      response, the store after the handler, the socket events emitted;
    - [new Date()] and [Date.now()] are the handler's [now] argument
      (milliseconds), read once per request;
    - a JavaScript [Number] is an IEEE-754 binary64 [float];
    - a [TypeError] raised inside a handler's [try] block is the 500 reply of
      its [catch] block;
    - the payment gateway is a record of functions, [None] when the call
      throws. *)

From Stdlib Require Import ZArith Bool List Ascii String Floats Uint63.
From stdpp Require Import base option gmap strings.
Import ListNotations.

Set Warnings "-inexact-float".
Local Open Scope Z_scope.
Local Open Scope string_scope.

(** ** Enumerations of the schemas *)

(** [status] of [orderSchema]. *)
Inductive Status :=
  | pending | confirmed | driver_assigned | driver_en_route
  | arrived | delivering | completed | cancelled.

(** [paymentStatus] of [orderSchema]; ['pending'] is [unpaid] here, the name
    [pending] being the order status. *)
Inductive PaymentStatus := unpaid | paid | failed | refunded.

Inductive PaymentMethod := card | cash | wallet.

Inductive FuelType := petrol | diesel.

(** [userType] of [userSchema]. *)
Inductive UserType := customer | driver | admin.

#[global] Instance Status_eq_dec : EqDecision Status.
Proof. solve_decision. Defined.
#[global] Instance PaymentStatus_eq_dec : EqDecision PaymentStatus.
Proof. solve_decision. Defined.
#[global] Instance PaymentMethod_eq_dec : EqDecision PaymentMethod.
Proof. solve_decision. Defined.
#[global] Instance UserType_eq_dec : EqDecision UserType.
Proof. solve_decision. Defined.

(** The string a status is stored and sent as. *)
Definition status_name (s : Status) : string :=
  match s with
  | pending => "pending"
  | confirmed => "confirmed"
  | driver_assigned => "driver_assigned"
  | driver_en_route => "driver_en_route"
  | arrived => "arrived"
  | delivering => "delivering"
  | completed => "completed"
  | cancelled => "cancelled"
  end.

Definition all_statuses : list Status :=
  [pending; confirmed; driver_assigned; driver_en_route;
   arrived; delivering; completed; cancelled].

(** Reading a request's [status] string against the schema's enum. *)
Definition status_of_string (s : string) : option Status :=
  List.find (fun st => String.eqb (status_name st) s) all_statuses.

(** express-validator's [isIn]. *)
Definition isIn (s : string) (allowed : list string) : bool :=
  existsb (String.eqb s) allowed.

(** JavaScript truthiness of an optional string: [undefined] and the empty
    string are falsy. *)
Definition truthy_string (s : option string) : bool :=
  match s with
  | Some s => negb (String.eqb s "")
  | None => false
  end.

(** [s || dflt] on an optional string. *)
Definition or_string (s : option string) (dflt : string) : string :=
  match s with
  | Some s => if String.eqb s "" then dflt else s
  | None => dflt
  end.

(** ** Documents *)

Record Location := { latitude : float; longitude : float }.

(** One entry of [tracking]: its [timestamp] and the fields written with it. *)
Record Milestone (P : Type) := { timestamp : Z; payload : P }.
Arguments timestamp {P} _.
Arguments payload {P} _.
Arguments Build_Milestone {P} _ _.

Record DeliveryProof := { signature : option string; photo : option string }.

Record Cancellation := { reason : option string; cancelledBy : UserType }.

(** [tracking] of [orderSchema]; a milestone that was never written is [None]. *)
Module Tracking.
Record t := {
    orderPlaced : option (Milestone unit);
    driverAssigned : option (Milestone string);   (* driverId *)
    driverEnRoute : option (Milestone Z);         (* estimatedArrival *)
    arrived : option (Milestone (option Location));
    delivering : option (Milestone unit);
    completed : option (Milestone DeliveryProof);
    cancelled : option (Milestone Cancellation)
  }.

Definition set_driverAssigned (v : option (Milestone string)) (k : t) : t :=
    {| orderPlaced := orderPlaced k; driverAssigned := v;
       driverEnRoute := driverEnRoute k; arrived := arrived k;
       delivering := delivering k; completed := completed k;
       cancelled := cancelled k |}.
Definition set_driverEnRoute (v : option (Milestone Z)) (k : t) : t :=
    {| orderPlaced := orderPlaced k; driverAssigned := driverAssigned k;
       driverEnRoute := v; arrived := arrived k;
       delivering := delivering k; completed := completed k;
       cancelled := cancelled k |}.
Definition set_arrived (v : option (Milestone (option Location))) (k : t) : t :=
    {| orderPlaced := orderPlaced k; driverAssigned := driverAssigned k;
       driverEnRoute := driverEnRoute k; arrived := v;
       delivering := delivering k; completed := completed k;
       cancelled := cancelled k |}.
Definition set_delivering (v : option (Milestone unit)) (k : t) : t :=
    {| orderPlaced := orderPlaced k; driverAssigned := driverAssigned k;
       driverEnRoute := driverEnRoute k; arrived := arrived k;
       delivering := v; completed := completed k;
       cancelled := cancelled k |}.
Definition set_completed (v : option (Milestone DeliveryProof)) (k : t) : t :=
    {| orderPlaced := orderPlaced k; driverAssigned := driverAssigned k;
       driverEnRoute := driverEnRoute k; arrived := arrived k;
       delivering := delivering k; completed := v;
       cancelled := cancelled k |}.
Definition set_cancelled (v : option (Milestone Cancellation)) (k : t) : t :=
    {| orderPlaced := orderPlaced k; driverAssigned := driverAssigned k;
       driverEnRoute := driverEnRoute k; arrived := arrived k;
       delivering := delivering k; completed := completed k;
       cancelled := v |}.
End Tracking.

(** One slot of [rating]: [score], [comment], [ratedAt]. *)
Record RatingSlot := {
  score : option Z;
  comment : option string;
  ratedAt : option Z
}.

Definition empty_slot : RatingSlot :=
  {| score := None; comment := None; ratedAt := None |}.

(** Truthiness of [slot.score]: [undefined] and [0] are falsy. *)
Definition score_set (s : RatingSlot) : bool :=
  match score s with
  | Some n => negb (Z.eqb n 0)
  | None => false
  end.

Record PaymentDetails := {
  transactionId : option string;
  stripePaymentIntentId : option string;
  paidAt : option Z
}.

Record DeliveryAddress := {
  street : string;
  city : string;
  state : string;
  zipCode : string;
  coordinates : option Location
}.

(** [orderSchema]. Left out: [orderNumber], [scheduledDelivery],
    [estimatedDeliveryTime], [discount], [notes.customerNotes],
    [notes.driverNotes], [createdAt], which no handler below reads after
    creation. *)
Module Order.
Record t := {
    customer : string;
    driver : option string;
    fuelType : FuelType;
    quantity : float;
    pricePerLiter : float;
    totalAmount : float;
    deliveryAddress : DeliveryAddress;
    status : Status;
    paymentStatus : PaymentStatus;
    paymentMethod : PaymentMethod;
    paymentDetails : PaymentDetails;
    actualDeliveryTime : option Z;
    deliveryFee : float;
    taxes : float;
    tracking : Tracking.t;
    customerRating : RatingSlot;
    driverRating : RatingSlot;
    adminNotes : option string;
    updatedAt : Z
  }.

Definition set_driver (v : option string) (o : t) : t :=
    {| customer := customer o; driver := v; fuelType := fuelType o;
       quantity := quantity o; pricePerLiter := pricePerLiter o;
       totalAmount := totalAmount o; deliveryAddress := deliveryAddress o;
       status := status o; paymentStatus := paymentStatus o;
       paymentMethod := paymentMethod o; paymentDetails := paymentDetails o;
       actualDeliveryTime := actualDeliveryTime o; deliveryFee := deliveryFee o;
       taxes := taxes o; tracking := tracking o;
       customerRating := customerRating o; driverRating := driverRating o;
       adminNotes := adminNotes o; updatedAt := updatedAt o |}.
Definition set_status (v : Status) (o : t) : t :=
    {| customer := customer o; driver := driver o; fuelType := fuelType o;
       quantity := quantity o; pricePerLiter := pricePerLiter o;
       totalAmount := totalAmount o; deliveryAddress := deliveryAddress o;
       status := v; paymentStatus := paymentStatus o;
       paymentMethod := paymentMethod o; paymentDetails := paymentDetails o;
       actualDeliveryTime := actualDeliveryTime o; deliveryFee := deliveryFee o;
       taxes := taxes o; tracking := tracking o;
       customerRating := customerRating o; driverRating := driverRating o;
       adminNotes := adminNotes o; updatedAt := updatedAt o |}.
Definition set_paymentStatus (v : PaymentStatus) (o : t) : t :=
    {| customer := customer o; driver := driver o; fuelType := fuelType o;
       quantity := quantity o; pricePerLiter := pricePerLiter o;
       totalAmount := totalAmount o; deliveryAddress := deliveryAddress o;
       status := status o; paymentStatus := v;
       paymentMethod := paymentMethod o; paymentDetails := paymentDetails o;
       actualDeliveryTime := actualDeliveryTime o; deliveryFee := deliveryFee o;
       taxes := taxes o; tracking := tracking o;
       customerRating := customerRating o; driverRating := driverRating o;
       adminNotes := adminNotes o; updatedAt := updatedAt o |}.
Definition set_paymentDetails (v : PaymentDetails) (o : t) : t :=
    {| customer := customer o; driver := driver o; fuelType := fuelType o;
       quantity := quantity o; pricePerLiter := pricePerLiter o;
       totalAmount := totalAmount o; deliveryAddress := deliveryAddress o;
       status := status o; paymentStatus := paymentStatus o;
       paymentMethod := paymentMethod o; paymentDetails := v;
       actualDeliveryTime := actualDeliveryTime o; deliveryFee := deliveryFee o;
       taxes := taxes o; tracking := tracking o;
       customerRating := customerRating o; driverRating := driverRating o;
       adminNotes := adminNotes o; updatedAt := updatedAt o |}.
Definition set_actualDeliveryTime (v : option Z) (o : t) : t :=
    {| customer := customer o; driver := driver o; fuelType := fuelType o;
       quantity := quantity o; pricePerLiter := pricePerLiter o;
       totalAmount := totalAmount o; deliveryAddress := deliveryAddress o;
       status := status o; paymentStatus := paymentStatus o;
       paymentMethod := paymentMethod o; paymentDetails := paymentDetails o;
       actualDeliveryTime := v; deliveryFee := deliveryFee o;
       taxes := taxes o; tracking := tracking o;
       customerRating := customerRating o; driverRating := driverRating o;
       adminNotes := adminNotes o; updatedAt := updatedAt o |}.
Definition set_tracking (v : Tracking.t) (o : t) : t :=
    {| customer := customer o; driver := driver o; fuelType := fuelType o;
       quantity := quantity o; pricePerLiter := pricePerLiter o;
       totalAmount := totalAmount o; deliveryAddress := deliveryAddress o;
       status := status o; paymentStatus := paymentStatus o;
       paymentMethod := paymentMethod o; paymentDetails := paymentDetails o;
       actualDeliveryTime := actualDeliveryTime o; deliveryFee := deliveryFee o;
       taxes := taxes o; tracking := v;
       customerRating := customerRating o; driverRating := driverRating o;
       adminNotes := adminNotes o; updatedAt := updatedAt o |}.
Definition set_customerRating (v : RatingSlot) (o : t) : t :=
    {| customer := customer o; driver := driver o; fuelType := fuelType o;
       quantity := quantity o; pricePerLiter := pricePerLiter o;
       totalAmount := totalAmount o; deliveryAddress := deliveryAddress o;
       status := status o; paymentStatus := paymentStatus o;
       paymentMethod := paymentMethod o; paymentDetails := paymentDetails o;
       actualDeliveryTime := actualDeliveryTime o; deliveryFee := deliveryFee o;
       taxes := taxes o; tracking := tracking o;
       customerRating := v; driverRating := driverRating o;
       adminNotes := adminNotes o; updatedAt := updatedAt o |}.
Definition set_driverRating (v : RatingSlot) (o : t) : t :=
    {| customer := customer o; driver := driver o; fuelType := fuelType o;
       quantity := quantity o; pricePerLiter := pricePerLiter o;
       totalAmount := totalAmount o; deliveryAddress := deliveryAddress o;
       status := status o; paymentStatus := paymentStatus o;
       paymentMethod := paymentMethod o; paymentDetails := paymentDetails o;
       actualDeliveryTime := actualDeliveryTime o; deliveryFee := deliveryFee o;
       taxes := taxes o; tracking := tracking o;
       customerRating := customerRating o; driverRating := v;
       adminNotes := adminNotes o; updatedAt := updatedAt o |}.
Definition set_adminNotes (v : option string) (o : t) : t :=
    {| customer := customer o; driver := driver o; fuelType := fuelType o;
       quantity := quantity o; pricePerLiter := pricePerLiter o;
       totalAmount := totalAmount o; deliveryAddress := deliveryAddress o;
       status := status o; paymentStatus := paymentStatus o;
       paymentMethod := paymentMethod o; paymentDetails := paymentDetails o;
       actualDeliveryTime := actualDeliveryTime o; deliveryFee := deliveryFee o;
       taxes := taxes o; tracking := tracking o;
       customerRating := customerRating o; driverRating := driverRating o;
       adminNotes := v; updatedAt := updatedAt o |}.
Definition set_updatedAt (v : Z) (o : t) : t :=
    {| customer := customer o; driver := driver o; fuelType := fuelType o;
       quantity := quantity o; pricePerLiter := pricePerLiter o;
       totalAmount := totalAmount o; deliveryAddress := deliveryAddress o;
       status := status o; paymentStatus := paymentStatus o;
       paymentMethod := paymentMethod o; paymentDetails := paymentDetails o;
       actualDeliveryTime := actualDeliveryTime o; deliveryFee := deliveryFee o;
       taxes := taxes o; tracking := tracking o;
       customerRating := customerRating o; driverRating := driverRating o;
       adminNotes := adminNotes o; updatedAt := v |}.
End Order.

(** [userSchema], the fields the handlers read or write. *)
Module User.
Record DriverDetails := {
  isApproved : bool;
  isOnline : bool;
  rating : float;
  totalRatings : float
}.

Record t := {
    userType : UserType;
    isActive : bool;
    driverDetails : DriverDetails
  }.
End User.

(** The two collections. *)
Record Db := {
  orders : gmap string Order.t;
  users : gmap string User.t
}.

(** ** Requests, responses, events *)

(** The bearer token of a request, as [jwt.verify] reads it. *)
Inductive Token :=
  | NoToken
  | BadToken
  | Bearer (userId : string).

(** [res.status(code).json(...)]: the code and the [message] (for a
    validation failure, the messages of the failed validators; for a body
    without a message, the empty string or the name of its flag). *)
Inductive Response :=
  | Json (code : Z) (message : string)
  | JsonErrors (code : Z) (errors : list string).

Definition code_of (r : Response) : Z :=
  match r with
  | Json c _ => c
  | JsonErrors c _ => c
  end.

(** [io.emit(name, ...)] ([room = None]) and [io.to(room).emit(name, ...)],
    with the order the payload is about and the status it carries. *)
Record Event := {
  room : option string;
  name : string;
  about : string;
  carries : option Status
}.

(** A call to the payment gateway that went through. *)
Inductive GatewayCall :=
  | CreatedIntent (orderId : string)
  | RetrievedIntent (paymentIntentId : string)
  | CreatedRefund (paymentIntentId : string).

Record Outcome := {
  response : Response;
  store : Db;
  emitted : list Event;
  called : list GatewayCall
}.

(** A response with the store and the events that go with it. *)
Definition respond (r : Response) (db : Db) (evs : list Event) : Outcome :=
  {| response := r; store := db; emitted := evs; called := [] |}.

(** A reply that leaves the store as it is and emits nothing. *)
Definition reply (code : Z) (message : string) (db : Db) : Outcome :=
  respond (Json code message) db [].

(** [order.save()]: the pre-save hook stamps [updatedAt], then the document
    replaces the stored one. *)
Definition save (now : Z) (orderId : string) (o : Order.t) (db : Db) : Db :=
  {| orders := <[orderId := Order.set_updatedAt now o]> (orders db);
     users := users db |}.

Definition save_user (userId : string) (u : User.t) (db : Db) : Db :=
  {| orders := orders db; users := <[userId := u]> (users db) |}.

(** ** Middleware ([middleware/auth.js]) *)

(** [auth]: the token's user must exist and be active; gives [req.userId] and
    [req.user]. *)
Definition auth (tok : Token) (db : Db) : Response + (string * User.t) :=
  match tok with
  | NoToken => inl (Json 401 "No token provided, access denied")
  | BadToken => inl (Json 401 "Token is not valid")
  | Bearer userId =>
      match users db !! userId with
      | Some user =>
          if User.isActive user then inr (userId, user)
          else inl (Json 401 "Token is not valid")
      | None => inl (Json 401 "Token is not valid")
      end
  end.

Definition is_type (t : UserType) (user : User.t) : bool :=
  bool_decide (User.userType user = t).

(** ** [routes/orders.js] *)

Definition customer_room (customerId : string) : string := "customer_" ++ customerId.
Definition driver_room (driverId : string) : string := "driver_" ++ driverId.

(** [PUT /:orderId/accept]. *)
Definition accept (now : Z) (tok : Token) (orderId : string) (db : Db) : Outcome :=
  match auth tok db with
  | inl r => respond r db []
  | inr (userId, user) =>
    if negb (is_type driver user) then
      reply 403 "Access denied. Driver privileges required." db
    else
      match orders db !! orderId with
      | None => reply 404 "Order not found" db
      | Some order =>
        if negb (bool_decide (Order.status order = confirmed))
           || bool_decide (is_Some (Order.driver order)) then
          reply 400 "Order not available for acceptance" db
        else
          let order := Order.set_driver (Some userId) order in
          let order := Order.set_status driver_assigned order in
          let order :=
            Order.set_tracking
              (Tracking.set_driverAssigned
                 (Some {| timestamp := now; payload := userId |})
                 (Order.tracking order)) order in
          let db := save now orderId order db in
          (* populate(['customer', 'driver']), then order.customer._id *)
          match users db !! Order.customer order with
          | None => reply 500 "Server error accepting order" db
          | Some _ =>
            respond (Json 200 "Order accepted successfully") db
              [ {| room := Some (customer_room (Order.customer order));
                   name := "orderUpdate"; about := orderId;
                   carries := Some driver_assigned |} ]
          end
      end
  end.

(** The statuses the status route's validator lets through. *)
Definition status_targets : list string :=
  ["driver_en_route"; "arrived"; "delivering"; "completed"; "cancelled"].

(** The body of [PUT /:orderId/status]. *)
Record StatusBody := {
  sb_status : string;
  sb_location : option Location;
  sb_signature : option string;
  sb_photo : option string;
  sb_cancelReason : option string
}.

(** The [switch (status)] of the status route: the milestone written for the
    new status, and for ['completed'] the delivery time and the cash
    settlement. *)
Definition write_milestone (now : Z) (user : User.t) (body : StatusBody)
    (st : Status) (order : Order.t) : Order.t :=
  let k := Order.tracking order in
  match st with
  | driver_en_route =>
      Order.set_tracking
        (Tracking.set_driverEnRoute
           (Some {| timestamp := now; payload := now + 30 * 60 * 1000 |}) k) order
  | arrived =>
      Order.set_tracking
        (Tracking.set_arrived
           (Some {| timestamp := now; payload := sb_location body |}) k) order
  | delivering =>
      Order.set_tracking
        (Tracking.set_delivering (Some {| timestamp := now; payload := tt |}) k) order
  | completed =>
      let order :=
        Order.set_tracking
          (Tracking.set_completed
             (Some {| timestamp := now;
                      payload := {| signature := sb_signature body;
                                    photo := sb_photo body |} |}) k) order in
      let order := Order.set_actualDeliveryTime (Some now) order in
      Order.set_paymentStatus
        (if bool_decide (Order.paymentMethod order = cash) then paid
         else Order.paymentStatus order) order
  | cancelled =>
      Order.set_tracking
        (Tracking.set_cancelled
           (Some {| timestamp := now;
                    payload := {| reason := sb_cancelReason body;
                                  cancelledBy := User.userType user |} |}) k) order
  | _ => order
  end.

(** The events of the status route and of the admin override: one to the
    customer's room and, when the populated driver is there, one to the
    driver's. *)
Definition status_events (db : Db) (orderId : string) (order : Order.t)
    (st : Status) : list Event :=
  {| room := Some (customer_room (Order.customer order));
     name := "orderUpdate"; about := orderId; carries := Some st |}
  :: match Order.driver order with
     | Some d =>
         match users db !! d with
         | Some _ =>
             [ {| room := Some (driver_room d); name := "orderUpdate";
                  about := orderId; carries := Some st |} ]
         | None => []
         end
     | None => []
     end.

(** [PUT /:orderId/status]. *)
Definition updateStatus (now : Z) (tok : Token) (orderId : string)
    (body : StatusBody) (db : Db) : Outcome :=
  match auth tok db with
  | inl r => respond r db []
  | inr (userId, user) =>
    if negb (isIn (sb_status body) status_targets)
    then respond (JsonErrors 400 ["Invalid status"]) db []
    else
      match orders db !! orderId with
      | None => reply 404 "Order not found" db
      | Some order =>
        (* Check permissions *)
        match
          (if is_type driver user then
             match Order.driver order with
             | None => None   (* order.driver.toString() on null: TypeError *)
             | Some d => Some (negb (String.eqb d userId))
             end
           else Some false)
        with
        | None => reply 500 "Server error updating order status" db
        | Some true => reply 403 "Not authorized to update this order" db
        | Some false =>
          if is_type customer user
             && negb (String.eqb (Order.customer order) userId)
             && negb (String.eqb (sb_status body) "cancelled")
          then reply 403 "Customers can only cancel orders" db
          else
            match status_of_string (sb_status body) with
            | None => reply 500 "Server error updating order status" db
            | Some st =>
              let order := Order.set_status st order in
              let order := write_milestone now user body st order in
              let db := save now orderId order db in
              match users db !! Order.customer order with
              | None => reply 500 "Server error updating order status" db
              | Some _ =>
                respond (Json 200 "Order status updated successfully") db
                  (status_events db orderId order st)
              end
            end
        end
      end
  end.

(** Truthiness of a [Number]: [0], [-0] and [NaN] are falsy. *)
Definition truthy_number (x : float) : bool :=
  negb (PrimFloat.eqb x 0 || PrimFloat.is_nan x).

(** [x || 0]. *)
Definition or_zero (x : float) : float :=
  if truthy_number x then x else 0%float.

(** An integer score as a [Number]. *)
Definition number_of_Z (n : Z) : float := PrimFloat.of_uint63 (Uint63.of_Z n).

(** The body of [POST /:orderId/rate]; [rb_rating] is a JSON integer. *)
Record RateBody := {
  rb_rating : Z;
  rb_comment : option string
}.

(** The update of the driver's overall rating in the rate route. *)
Definition update_driver_rating (rating : Z) (drv : User.t) : User.t :=
  let currentRating := or_zero (User.rating (User.driverDetails drv)) in
  let totalRatings := or_zero (User.totalRatings (User.driverDetails drv)) in
  let newTotalRatings := (totalRatings + 1)%float in
  let newRating :=
    ((currentRating * totalRatings + number_of_Z rating) / newTotalRatings)%float in
  {| User.userType := User.userType drv;
     User.isActive := User.isActive drv;
     User.driverDetails :=
       {| User.isApproved := User.isApproved (User.driverDetails drv);
          User.isOnline := User.isOnline (User.driverDetails drv);
          User.rating := newRating;
          User.totalRatings := newTotalRatings |} |}.

(** The block "Update driver's overall rating" of the rate route: when the
    order has a driver and [User.findById] finds it, the driver document is
    saved with the new average and count. *)
Definition rated_driver (rating : Z) (order : Order.t) (db : Db) : Db :=
  match Order.driver order with
  | Some d =>
      match users db !! d with
      | Some drv => save_user d (update_driver_rating rating drv) db
      | None => db
      end
  | None => db
  end.

(** [POST /:orderId/rate]. *)
Definition rate (now : Z) (tok : Token) (orderId : string) (body : RateBody)
    (db : Db) : Outcome :=
  match auth tok db with
  | inl r => respond r db []
  | inr (userId, user) =>
    if negb ((1 <=? rb_rating body)%Z && (rb_rating body <=? 5)%Z) then
      respond (JsonErrors 400 ["Rating must be between 1 and 5"]) db []
    else
      match orders db !! orderId with
      | None => reply 404 "Order not found" db
      | Some order =>
        if negb (bool_decide (Order.status order = completed)) then
          reply 400 "Can only rate completed orders" db
        else
          let slot := {| score := Some (rb_rating body);
                         comment := rb_comment body;
                         ratedAt := Some now |} in
          match User.userType user with
          | customer =>
            if negb (String.eqb (Order.customer order) userId) then
              reply 403 "Not authorized to rate this order" db
            else if score_set (Order.customerRating order) then
              reply 400 "Order already rated" db
            else
              let order := Order.set_customerRating slot order in
              let db := rated_driver (rb_rating body) order db in
              respond (Json 200 "Rating submitted successfully")
                (save now orderId order db) []
          | driver =>
            if negb (match Order.driver order with
                     | Some d => String.eqb d userId
                     | None => false
                     end) then
              reply 403 "Not authorized to rate this order" db
            else if score_set (Order.driverRating order) then
              reply 400 "Order already rated" db
            else
              let order := Order.set_driverRating slot order in
              respond (Json 200 "Rating submitted successfully")
                (save now orderId order db) []
          | admin =>
            respond (Json 200 "Rating submitted successfully")
              (save now orderId order db) []
          end
      end
  end.

(** The body of [POST /] (order creation). *)
Record OrderBody := {
  ob_fuelType : string;
  ob_quantity : float;
  ob_street : string;
  ob_city : string;
  ob_state : string;
  ob_zipCode : string;
  ob_latitude : option float;
  ob_longitude : option float;
  ob_paymentMethod : string
}.

(** The validation chain of order creation: the messages of the validators
    that fail, in the order of the chain. *)
Definition createOrder_errors (body : OrderBody) : list string :=
  ((if isIn (ob_fuelType body) ["petrol"; "diesel"] then [] else ["Invalid fuel type"])
  ++ (if PrimFloat.leb 1 (ob_quantity body) then []
      else ["Quantity must be at least 1 liter"])
  ++ (if String.eqb (ob_street body) "" then ["Street address is required"] else [])
  ++ (if String.eqb (ob_city body) "" then ["City is required"] else [])
  ++ (if String.eqb (ob_state body) "" then ["State is required"] else [])
  ++ (if String.eqb (ob_zipCode body) "" then ["Zip code is required"] else [])
  ++ (if ob_latitude body is Some _ then [] else ["Valid latitude is required"])
  ++ (if ob_longitude body is Some _ then [] else ["Valid longitude is required"])
  ++ (if isIn (ob_paymentMethod body) ["card"; "cash"; "wallet"] then []
      else ["Invalid payment method"]))%list.

(** The price computation of order creation, on the validated fuel type and
    quantity: [(pricePerLiter, deliveryFee, taxes, totalAmount)]. *)
Definition price (fuelType : string) (quantity : float)
    : float * float * float * float :=
  let pricePerLiter := if String.eqb fuelType "petrol" then 95.50%float else 89.75%float in
  let baseAmount := (quantity * pricePerLiter)%float in
  let deliveryFee := 50%float in
  let taxes := (baseAmount * 0.18)%float in
  let totalAmount := (baseAmount + deliveryFee + taxes)%float in
  (pricePerLiter, deliveryFee, taxes, totalAmount).

Definition empty_tracking (now : Z) : Tracking.t :=
  {| Tracking.orderPlaced := Some {| timestamp := now; payload := tt |};
     Tracking.driverAssigned := None; Tracking.driverEnRoute := None;
     Tracking.arrived := None; Tracking.delivering := None;
     Tracking.completed := None; Tracking.cancelled := None |}.

(** [new Order({...})] with the schema's defaults. *)
Definition new_order (now : Z) (userId : string) (body : OrderBody) : Order.t :=
  let '(pricePerLiter, deliveryFee, taxes, totalAmount) :=
    price (ob_fuelType body) (ob_quantity body) in
  {| Order.customer := userId;
     Order.driver := None;
     Order.fuelType := if String.eqb (ob_fuelType body) "petrol" then petrol else diesel;
     Order.quantity := ob_quantity body;
     Order.pricePerLiter := pricePerLiter;
     Order.totalAmount := totalAmount;
     Order.deliveryAddress :=
       {| street := ob_street body; city := ob_city body; state := ob_state body;
          zipCode := ob_zipCode body;
          coordinates :=
            match ob_latitude body, ob_longitude body with
            | Some la, Some lo => Some {| latitude := la; longitude := lo |}
            | _, _ => None
            end |};
     Order.status := pending;
     Order.paymentStatus := unpaid;
     Order.paymentMethod :=
       if String.eqb (ob_paymentMethod body) "card" then card
       else if String.eqb (ob_paymentMethod body) "cash" then cash else wallet;
     Order.paymentDetails :=
       {| transactionId := None; stripePaymentIntentId := None; paidAt := None |};
     Order.actualDeliveryTime := None;
     Order.deliveryFee := deliveryFee;
     Order.taxes := taxes;
     Order.tracking := empty_tracking now;
     Order.customerRating := empty_slot;
     Order.driverRating := empty_slot;
     Order.adminNotes := None;
     Order.updatedAt := now |}.

(** [POST /] (order creation); [newId] is the [_id] Mongoose gives the new
    document, and an [_id] already stored fails the insert. *)
Definition createOrder (now : Z) (newId : string) (tok : Token)
    (body : OrderBody) (db : Db) : Outcome :=
  match auth tok db with
  | inl r => respond r db []
  | inr (userId, user) =>
    if negb (is_type customer user) then
      reply 403 "Access denied. Customer privileges required." db
    else
      match createOrder_errors body with
      | _ :: _ as errs => respond (JsonErrors 400 errs) db []
      | [] =>
        match orders db !! newId with
        | Some _ => reply 500 "Server error creating order" db
        | None =>
          respond (Json 201 "Order created successfully")
            (save now newId (new_order now userId body) db)
            [ {| room := None; name := "newOrder"; about := newId;
                 carries := None |} ]
        end
      end
  end.

(** ** [routes/payments.js] *)

Definition is_hex (c : ascii) : bool :=
  let n := nat_of_ascii c in
  ((48 <=? n) && (n <=? 57) || (65 <=? n) && (n <=? 70)
   || (97 <=? n) && (n <=? 102))%nat.

(** express-validator's [isMongoId]: 24 hexadecimal digits. *)
Definition isMongoId (s : string) : bool :=
  Nat.eqb (String.length s) 24 && forallb is_hex (list_ascii_of_string s).

Record PaymentIntent := { pi_id : string; pi_status : string }.

(** A verified gateway event: its [type] and the id of [data.object]. *)
Record StripeEvent := { ev_type : string; ev_object : string }.

(** The gateway. Each function stands for one call of the Stripe client and
    is [None] when the call throws; [paymentIntents_create] gets the order
    its amount and metadata are computed from and gives the new intent's id,
    [refunds_create] gets the intent to refund and gives the refund's id. *)
Record Gateway := {
  paymentIntents_create : string -> Order.t -> option string;
  paymentIntents_retrieve : string -> option PaymentIntent;
  refunds_create : string -> option string;
  webhooks_constructEvent : string -> string -> option StripeEvent
}.

(** [Order.findOne({'paymentDetails.stripePaymentIntentId': id})]: the first
    stored order with that intent. *)
Definition findOne_by_intent (id : string) (db : Db) : option (string * Order.t) :=
  List.find
    (fun kv => bool_decide (stripePaymentIntentId (Order.paymentDetails kv.2) = Some id))
    (map_to_list (orders db)).

(** The writes both payment entry points make on success. *)
Definition mark_paid (now : Z) (intentId : string) (order : Order.t) : Order.t :=
  let order := Order.set_paymentStatus paid order in
  let order :=
    Order.set_paymentDetails
      {| transactionId := Some intentId;
         stripePaymentIntentId := stripePaymentIntentId (Order.paymentDetails order);
         paidAt := Some now |} order in
  Order.set_status confirmed order.

Section Payments.

Variable stripe : Gateway.

(** [POST /create-payment-intent]. *)
Definition createPaymentIntent (now : Z) (tok : Token) (orderId : string)
    (db : Db) : Outcome :=
  match auth tok db with
  | inl r => respond r db []
  | inr (userId, user) =>
    if negb (is_type customer user) then
      reply 403 "Access denied. Customer privileges required." db
    else if negb (isMongoId orderId) then
      respond (JsonErrors 400 ["Valid order ID is required"]) db []
    else
      match orders db !! orderId with
      | None => reply 404 "Order not found" db
      | Some order =>
        if negb (String.eqb (Order.customer order) userId) then
          reply 403 "Not authorized to pay for this order" db
        else if bool_decide (Order.paymentStatus order = paid) then
          reply 400 "Order is already paid" db
        else if bool_decide (Order.status order = cancelled) then
          reply 400 "Cannot pay for cancelled order" db
        else
          match paymentIntents_create stripe orderId order with
          | None => reply 500 "Server error creating payment intent" db
          | Some intentId =>
            let order :=
              Order.set_paymentDetails
                {| transactionId := transactionId (Order.paymentDetails order);
                   stripePaymentIntentId := Some intentId;
                   paidAt := paidAt (Order.paymentDetails order) |} order in
            {| response := Json 200 "";
               store := save now orderId order db;
               emitted := [];
               called := [CreatedIntent orderId] |}
          end
      end
  end.

(** [POST /confirm-payment]. *)
Definition confirmPayment (now : Z) (tok : Token) (paymentIntentId : string)
    (orderId : string) (db : Db) : Outcome :=
  match auth tok db with
  | inl r => respond r db []
  | inr (userId, user) =>
    if negb (is_type customer user) then
      reply 403 "Access denied. Customer privileges required." db
    else
      match
        ((if String.eqb paymentIntentId "" then ["Payment intent ID is required"] else [])
         ++ (if isMongoId orderId then [] else ["Valid order ID is required"]))%list
      with
      | _ :: _ as errs => respond (JsonErrors 400 errs) db []
      | [] =>
        match orders db !! orderId with
        | None => reply 404 "Order not found" db
        | Some order =>
          if negb (String.eqb (Order.customer order) userId) then
            reply 403 "Not authorized" db
          else
            match paymentIntents_retrieve stripe paymentIntentId with
            | None => reply 500 "Server error confirming payment" db
            | Some paymentIntent =>
              if String.eqb (pi_status paymentIntent) "succeeded" then
                {| response := Json 200 "Payment confirmed successfully";
                   store := save now orderId (mark_paid now (pi_id paymentIntent) order) db;
                   emitted := [ {| room := None; name := "paymentConfirmed";
                                   about := orderId; carries := None |} ];
                   called := [RetrievedIntent paymentIntentId] |}
              else
                {| response := Json 400 "Payment not successful";
                   store := db; emitted := [];
                   called := [RetrievedIntent paymentIntentId] |}
            end
        end
      end
  end.

(** [POST /webhook]. *)
Definition webhook (now : Z) (rawBody : string) (sig : string) (db : Db) : Outcome :=
  match webhooks_constructEvent stripe rawBody sig with
  | None => reply 400 "Webhook Error" db
  | Some event =>
    if String.eqb (ev_type event) "payment_intent.succeeded" then
      match findOne_by_intent (ev_object event) db with
      | Some (orderId, order) =>
        respond (Json 200 "received")
          (save now orderId (mark_paid now (ev_object event) order) db)
          [ {| room := Some (customer_room (Order.customer order));
               name := "paymentSuccess"; about := orderId; carries := None |} ]
      | None => reply 200 "received" db
      end
    else if String.eqb (ev_type event) "payment_intent.payment_failed" then
      match findOne_by_intent (ev_object event) db with
      | Some (orderId, failedOrder) =>
        respond (Json 200 "received")
          (save now orderId (Order.set_paymentStatus failed failedOrder) db)
          [ {| room := Some (customer_room (Order.customer failedOrder));
               name := "paymentFailed"; about := orderId; carries := None |} ]
      | None => reply 200 "received" db
      end
    else reply 200 "received" db
  end.

(** [POST /refund]. *)
Definition refund (now : Z) (tok : Token) (orderId : string)
    (reason : option string) (db : Db) : Outcome :=
  match auth tok db with
  | inl r => respond r db []
  | inr (userId, user) =>
    if negb (isMongoId orderId) then
      respond (JsonErrors 400 ["Valid order ID is required"]) db []
    else
      match orders db !! orderId with
      | None => reply 404 "Order not found" db
      | Some order =>
        if is_type customer user && negb (String.eqb (Order.customer order) userId) then
          reply 403 "Not authorized" db
        else if negb (bool_decide (Order.paymentStatus order = paid)) then
          reply 400 "Order is not paid, cannot refund" db
        else if bool_decide (Order.status order = completed) then
          reply 400 "Cannot refund completed orders" db
        else
          match stripePaymentIntentId (Order.paymentDetails order) with
          | Some intentId =>
            if String.eqb intentId "" then
              reply 400 "No payment record found for refund" db
            else
              match refunds_create stripe intentId with
              | None => reply 500 "Server error processing refund" db
              | Some _ =>
                let order := Order.set_paymentStatus refunded order in
                let order := Order.set_status cancelled order in
                let order :=
                  Order.set_tracking
                    (Tracking.set_cancelled
                       (Some {| timestamp := now;
                                payload :=
                                  {| reason := Some (or_string reason "Refund processed");
                                     cancelledBy := User.userType user |} |})
                       (Order.tracking order)) order in
                {| response := Json 200 "Refund processed successfully";
                   store := save now orderId order db;
                   emitted := [ {| room := Some (customer_room (Order.customer order));
                                   name := "refundProcessed"; about := orderId;
                                   carries := None |} ];
                   called := [CreatedRefund intentId] |}
              end
          | None => reply 400 "No payment record found for refund" db
          end
      end
  end.

End Payments.

(** ** [routes/admin.js] *)

(** [PUT /orders/:orderId/status] (admin override). *)
Definition adminUpdateStatus (now : Z) (tok : Token) (orderId : string)
    (status : string) (reason : option string) (db : Db) : Outcome :=
  match auth tok db with
  | inl r => respond r db []
  | inr (userId, user) =>
    if negb (is_type admin user) then
      reply 403 "Access denied. Admin privileges required." db
    else if negb (isIn status (map status_name all_statuses)) then
      respond (JsonErrors 400 ["Invalid status"]) db []
    else
      match orders db !! orderId with
      | None => reply 404 "Order not found" db
      | Some order =>
        match status_of_string status with
        | None => reply 500 "Server error updating order status" db
        | Some st =>
          let order := Order.set_status st order in
          let order :=
            if truthy_string reason then Order.set_adminNotes reason order
            else order in
          let order :=
            if bool_decide (st = cancelled) then
              Order.set_tracking
                (Tracking.set_cancelled
                   (Some {| timestamp := now;
                            payload :=
                              {| reason := Some (or_string reason "Cancelled by admin");
                                 cancelledBy := admin |} |})
                   (Order.tracking order)) order
            else order in
          let db := save now orderId order db in
          match users db !! Order.customer order with
          | None => reply 500 "Server error updating order status" db
          | Some _ =>
            respond (Json 200 "Order status updated successfully") db
              (status_events db orderId order st)
          end
        end
      end
  end.

(** ** Requests and runs *)

(** One request to the server, as the routes above take it. *)
Inductive Request :=
  | CreateOrder (newId : string) (tok : Token) (body : OrderBody)
  | Accept (tok : Token) (orderId : string)
  | UpdateStatus (tok : Token) (orderId : string) (body : StatusBody)
  | Rate (tok : Token) (orderId : string) (body : RateBody)
  | CreatePaymentIntent (tok : Token) (orderId : string)
  | ConfirmPayment (tok : Token) (paymentIntentId : string) (orderId : string)
  | Webhook (rawBody : string) (sig : string)
  | Refund (tok : Token) (orderId : string) (reason : option string)
  | AdminUpdateStatus (tok : Token) (orderId : string) (status : string)
      (reason : option string).

(** The routes mounted under [/api/admin]. *)
Definition is_admin_route (req : Request) : bool :=
  match req with
  | AdminUpdateStatus _ _ _ _ => true
  | _ => false
  end.

(** Dispatch of a request arriving at time [now]. *)
Definition handle (stripe : Gateway) (now : Z) (req : Request) (db : Db) : Outcome :=
  match req with
  | CreateOrder newId tok body => createOrder now newId tok body db
  | Accept tok orderId => accept now tok orderId db
  | UpdateStatus tok orderId body => updateStatus now tok orderId body db
  | Rate tok orderId body => rate now tok orderId body db
  | CreatePaymentIntent tok orderId => createPaymentIntent stripe now tok orderId db
  | ConfirmPayment tok paymentIntentId orderId =>
      confirmPayment stripe now tok paymentIntentId orderId db
  | Webhook rawBody sig => webhook stripe now rawBody sig db
  | Refund tok orderId reason => refund stripe now tok orderId reason db
  | AdminUpdateStatus tok orderId status reason =>
      adminUpdateStatus now tok orderId status reason db
  end.

(** The store after a sequence of timed requests, handled one after another. *)
Fixpoint run (stripe : Gateway) (reqs : list (Z * Request)) (db : Db) : Db :=
  match reqs with
  | [] => db
  | (now, req) :: rest => run stripe rest (store (handle stripe now req db))
  end.

(** ** The lifecycle of the specification *)

(** The successor of a status along the chain
    pending, confirmed, driver_assigned, driver_en_route, arrived,
    delivering, completed. *)
Definition next_status (s : Status) : option Status :=
  match s with
  | pending => Some confirmed
  | confirmed => Some driver_assigned
  | driver_assigned => Some driver_en_route
  | driver_en_route => Some arrived
  | arrived => Some delivering
  | delivering => Some completed
  | completed => None
  | cancelled => None
  end.

Definition terminal (s : Status) : bool :=
  match s with
  | completed | cancelled => true
  | _ => false
  end.

(** One edge of the lifecycle: a step forward along the chain, or the jump to
    [cancelled] from a status that is not terminal. *)
Definition lifecycle_edge (s s' : Status) : Prop :=
  next_status s = Some s' \/ (s' = cancelled /\ terminal s = false).

(** What a run may show between two observations of an order: any number of
    lifecycle edges. *)
Definition lifecycle_path : Status -> Status -> Prop := rtc lifecycle_edge.




(** The status changes the handlers make, request by request: what a
    request to any route but the admin override may do to the status [s] of
    the order [orderId], leaving it [s']. *)
Definition status_written (req : Request) (orderId : string) (s s' : Status) : Prop :=
  match req with
  | Accept _ id => id = orderId /\ s = confirmed /\ s' = driver_assigned
  | UpdateStatus _ id body =>
      id = orderId
      /\ status_of_string (sb_status body) = Some s'
      /\ In s' [driver_en_route; arrived; delivering; completed; cancelled]
  | ConfirmPayment _ _ id => id = orderId /\ s' = confirmed
  | Webhook _ _ => s' = confirmed
  | Refund _ id _ => id = orderId /\ s <> completed /\ s' = cancelled
  | CreateOrder _ _ _ | Rate _ _ _ | CreatePaymentIntent _ _
  | AdminUpdateStatus _ _ _ _ => False
  end.

(** The slot of [rating] a role fills: [customerRating] holds the customer's
    rating of the driver, [driverRating] the driver's rating of the
    customer. *)
Definition slot_of (role : UserType) (o : Order.t) : RatingSlot :=
  match role with
  | customer => Order.customerRating o
  | _ => Order.driverRating o
  end.


(** ** Sample data *)

Definition sample_user (t : UserType) : User.t :=
  {| User.userType := t; User.isActive := true;
     User.driverDetails :=
       {| User.isApproved := true; User.isOnline := true;
          User.rating := 0%float; User.totalRatings := 0%float |} |}.

(** Two customers, two drivers and an administrator. *)
Definition sample_users : gmap string User.t :=
  list_to_map
    [ ("c1", sample_user customer); ("c2", sample_user customer);
      ("d1", sample_user driver); ("d2", sample_user driver);
      ("a1", sample_user admin) ].

Definition petrol_body : OrderBody :=
  {| ob_fuelType := "petrol"; ob_quantity := 10%float;
     ob_street := "1 Main St"; ob_city := "Pune"; ob_state := "MH";
     ob_zipCode := "411001";
     ob_latitude := Some 18.5%float; ob_longitude := Some 73.8%float;
     ob_paymentMethod := "card" |}.

(** An order of customer c1 in a given status, with a given driver and
    payment state. *)
Definition sample_order (st : Status) (drv : option string)
    (pay : PaymentStatus) (intent : option string) : Order.t :=
  let o := new_order 1000 "c1" petrol_body in
  let o := Order.set_driver drv o in
  let o := Order.set_status st o in
  let o := Order.set_paymentStatus pay o in
  Order.set_paymentDetails
    {| transactionId := None; stripePaymentIntentId := intent; paidAt := None |} o.

Definition oid1 : string := "64b7f0c2a1d3e4f5a6b7c8d1".
Definition oid2 : string := "64b7f0c2a1d3e4f5a6b7c8d2".
Definition oid3 : string := "64b7f0c2a1d3e4f5a6b7c8d3".

Definition sample_db (o : Order.t) : Db :=
  {| orders := {[ oid1 := o ]}; users := sample_users |}.

(** A gateway on which intent pi_1 has succeeded and every refund goes
    through; the webhook body is the event type, its signature the intent. *)
Definition sample_stripe : Gateway :=
  {| paymentIntents_create := fun _ _ => Some "pi_1";
     paymentIntents_retrieve :=
       fun id => Some {| pi_id := id; pi_status := "succeeded" |};
     refunds_create := fun _ => Some "re_1";
     webhooks_constructEvent :=
       fun rawBody sig => Some {| ev_type := rawBody; ev_object := sig |} |}.

(** Three completed orders of customer c1, all delivered by driver d1. *)
Definition delivered_db : Db :=
  {| orders :=
       list_to_map
         [ (oid1, sample_order completed (Some "d1") paid None);
           (oid2, sample_order completed (Some "d1") paid None);
           (oid3, sample_order completed (Some "d1") paid None) ];
     users := sample_users |}.

Definition rate_body (n : Z) : RateBody :=
  {| rb_rating := n; rb_comment := None |}.

Definition status_body (s : string) : StatusBody :=
  {| sb_status := s; sb_location := None; sb_signature := None;
     sb_photo := None; sb_cancelReason := None |}.

(** ** Read routes of [routes/orders.js] and [routes/payments.js] *)

(** [GET /:orderId]: the reply and the order it discloses. The order is read
    with its customer and driver populated, so a reference to a user that is
    not stored reads as null. *)
Definition getOrder (tok : Token) (orderId : string) (db : Db)
    : Response * option Order.t :=
  match auth tok db with
  | inl r => (r, None)
  | inr (userId, user) =>
    match orders db !! orderId with
    | None => (Json 404 "Order not found", None)
    | Some order =>
      match
        (if is_type customer user then
           match users db !! Order.customer order with
           | None => None   (* order.customer._id on null: TypeError *)
           | Some _ => Some (negb (String.eqb (Order.customer order) userId))
           end
         else Some false)
      with
      | None => (Json 500 "Server error fetching order details", None)
      | Some true => (Json 403 "Not authorized to view this order", None)
      | Some false =>
        if is_type driver user
           && match Order.driver order with
              | Some d =>
                  match users db !! d with
                  | Some _ => negb (String.eqb d userId)
                  | None => true
                  end
              | None => true
              end
        then (Json 403 "Not authorized to view this order", None)
        else (Json 200 "", Some order)
      end
    end
  end.

(** The body of the reply of [GET /status/:orderId]. *)
Record PaymentView := {
  pv_paymentStatus : PaymentStatus;
  pv_totalAmount : float;
  pv_paymentMethod : PaymentMethod;
  pv_paymentDetails : PaymentDetails
}.

(** [GET /status/:orderId] of the payment routes. *)
Definition getPaymentStatus (tok : Token) (orderId : string) (db : Db)
    : Response * option PaymentView :=
  match auth tok db with
  | inl r => (r, None)
  | inr (userId, user) =>
    match orders db !! orderId with
    | None => (Json 404 "Order not found", None)
    | Some order =>
      if is_type customer user && negb (String.eqb (Order.customer order) userId) then
        (Json 403 "Not authorized", None)
      else
        (Json 200 "",
         Some {| pv_paymentStatus := Order.paymentStatus order;
                 pv_totalAmount := Order.totalAmount order;
                 pv_paymentMethod := Order.paymentMethod order;
                 pv_paymentDetails := Order.paymentDetails order |})
    end
  end.

(** [GET /available]: the reply and the orders it lists, by id. The list's
    order (by [createdAt], a field left out of [Order.t]) is not
    represented. *)
Definition available (tok : Token) (db : Db) : Response * gmap string Order.t :=
  match auth tok db with
  | inl r => (r, ∅)
  | inr (userId, user) =>
    if negb (is_type driver user) then
      (Json 403 "Access denied. Driver privileges required.", ∅)
    else if negb (User.isApproved (User.driverDetails user)) then
      (Json 403 "Driver not approved yet", ∅)
    else if negb (User.isOnline (User.driverDetails user)) then
      (Json 400 "Driver must be online to view available orders", ∅)
    else
      (Json 200 "",
       filter (fun kv => Order.status kv.2 = confirmed /\ Order.driver kv.2 = None)
         (orders db))
  end.

(** ** [routes/drivers.js] *)

Definition set_isOnline (v : bool) (u : User.t) : User.t :=
  {| User.userType := User.userType u;
     User.isActive := User.isActive u;
     User.driverDetails :=
       {| User.isApproved := User.isApproved (User.driverDetails u);
          User.isOnline := v;
          User.rating := User.rating (User.driverDetails u);
          User.totalRatings := User.totalRatings (User.driverDetails u) |} |}.

Definition set_isApproved (v : bool) (u : User.t) : User.t :=
  {| User.userType := User.userType u;
     User.isActive := User.isActive u;
     User.driverDetails :=
       {| User.isApproved := v;
          User.isOnline := User.isOnline (User.driverDetails u);
          User.rating := User.rating (User.driverDetails u);
          User.totalRatings := User.totalRatings (User.driverDetails u) |} |}.

Definition set_isActive (v : bool) (u : User.t) : User.t :=
  {| User.userType := User.userType u;
     User.isActive := v;
     User.driverDetails := User.driverDetails u |}.

(** [PUT /status] of the driver routes, on a JSON boolean [isOnline]. The
    update also stamps [driverDetails.currentLocation.lastUpdated], a field
    left out of [User.t]. The event is about the driver. *)
Definition setOnline (tok : Token) (isOnline : bool) (db : Db) : Outcome :=
  match auth tok db with
  | inl r => respond r db []
  | inr (userId, user) =>
    if negb (is_type driver user) then
      reply 403 "Access denied. Driver privileges required." db
    else if negb (User.isApproved (User.driverDetails user)) then
      reply 403 "Driver account not approved yet" db
    else
      respond
        (Json 200 ("Driver status updated to " ++ (if isOnline then "online" else "offline")))
        (save_user userId (set_isOnline isOnline user) db)
        [ {| room := None; name := "driverStatusChange"; about := userId;
             carries := None |} ]
  end.

(** The orders [PUT /location] broadcasts for: those of the driver that are
    assigned, en route or arrived. *)
Definition active_for (userId : string) (o : Order.t) : bool :=
  bool_decide (Order.driver o = Some userId)
  && bool_decide (In (Order.status o) [driver_assigned; driver_en_route; arrived]).

(** [PUT /location] of the driver routes. The update writes
    [driverDetails.currentLocation], a field left out of [User.t], so the
    store here is unchanged; the events are to the customers of the driver's
    active orders, then to every socket. *)
Definition updateLocation (tok : Token) (latitude longitude : option float)
    (db : Db) : Outcome :=
  match auth tok db with
  | inl r => respond r db []
  | inr (userId, user) =>
    if negb (is_type driver user) then
      reply 403 "Access denied. Driver privileges required." db
    else
      match
        ((if latitude is Some _ then [] else ["Valid latitude is required"])
         ++ (if longitude is Some _ then [] else ["Valid longitude is required"]))%list
      with
      | _ :: _ as errs => respond (JsonErrors 400 errs) db []
      | [] =>
        let activeOrders :=
          List.filter (fun kv => active_for userId kv.2) (map_to_list (orders db)) in
        respond (Json 200 "Location updated successfully") db
          (List.map
             (fun kv =>
                {| room := Some (customer_room (Order.customer kv.2));
                   name := "driverLocationUpdate"; about := kv.1;
                   carries := None |})
             activeOrders
           ++ [ {| room := None; name := "driverLocationUpdate"; about := userId;
                   carries := None |} ])%list
      end
  end.

(** ** User administration of [routes/admin.js] *)

(** [PUT /drivers/:driverId/approval], on a JSON boolean [isApproved]. The
    handler also assigns [driverDetails.rejectionReason], a path the schema
    does not have. The event is about the driver. *)
Definition approveDriver (tok : Token) (driverId : string) (isApproved : bool)
    (db : Db) : Outcome :=
  match auth tok db with
  | inl r => respond r db []
  | inr (userId, user) =>
    if negb (is_type admin user) then
      reply 403 "Access denied. Admin privileges required." db
    else
      match users db !! driverId with
      | Some drv =>
        if is_type driver drv then
          respond
            (Json 200 ("Driver " ++ (if isApproved then "approved" else "rejected")
                       ++ " successfully"))
            (save_user driverId (set_isApproved isApproved drv) db)
            [ {| room := Some (driver_room driverId); name := "approvalStatusUpdate";
                 about := driverId; carries := None |} ]
        else reply 404 "Driver not found" db
      | None => reply 404 "Driver not found" db
      end
  end.



(** ** Requests as wholes *)

(** The bearer token of a request; the webhook carries none. *)
Definition token_of (req : Request) : option Token :=
  match req with
  | CreateOrder _ tok _ | Accept tok _ | UpdateStatus tok _ _ | Rate tok _ _
  | CreatePaymentIntent tok _ | ConfirmPayment tok _ _ | Refund tok _ _
  | AdminUpdateStatus tok _ _ _ => Some tok
  | Webhook _ _ => None
  end.

(** The role middleware of a route ([requireCustomer], [requireDriver],
    [requireAdmin]), when it has one. *)
Definition required_role (req : Request) : option UserType :=
  match req with
  | CreateOrder _ _ _ | CreatePaymentIntent _ _ | ConfirmPayment _ _ _ => Some customer
  | Accept _ _ => Some driver
  | AdminUpdateStatus _ _ _ _ => Some admin
  | UpdateStatus _ _ _ | Rate _ _ _ | Refund _ _ _ | Webhook _ _ => None
  end.

(** Every stored order's customer is a stored user. *)
Definition customers_stored (db : Db) : Prop :=
  forall orderId o, orders db !! orderId = Some o ->
    is_Some (users db !! Order.customer o).

(** The terms fixed when an order is placed. *)
Definition terms (o : Order.t)
    : string * FuelType * float * float * float * float * float
      * PaymentMethod * DeliveryAddress :=
  (Order.customer o, Order.fuelType o, Order.quantity o, Order.pricePerLiter o,
   Order.totalAmount o, Order.deliveryFee o, Order.taxes o,
   Order.paymentMethod o, Order.deliveryAddress o).

(** ** More sample data *)

(** A driver who is not approved yet and offline. *)
Definition new_driver : User.t :=
  {| User.userType := driver; User.isActive := true;
     User.driverDetails :=
       {| User.isApproved := false; User.isOnline := false;
          User.rating := 0%float; User.totalRatings := 0%float |} |}.

(** The sample store with the new driver d3 and one order. *)
Definition fleet_db (o : Order.t) : Db :=
  {| orders := {[ oid1 := o ]};
     users := <["d3" := new_driver]> sample_users |}.

(** Two user documents that differ at most in the running average and its
    count. *)
Definition same_account (u u' : User.t) : Prop :=
  User.userType u' = User.userType u
  /\ User.isActive u' = User.isActive u
  /\ User.isApproved (User.driverDetails u') = User.isApproved (User.driverDetails u)
  /\ User.isOnline (User.driverDetails u') = User.isOnline (User.driverDetails u).

(** An order of customer c1 to be paid in cash on delivery, being delivered
    by driver d1. *)
Definition cash_order : Order.t :=
  Order.set_status delivering
    (Order.set_driver (Some "d1")
       (new_order 1000 "c1"
          {| ob_fuelType := "diesel"; ob_quantity := 20%float;
             ob_street := "1 Main St"; ob_city := "Pune"; ob_state := "MH";
             ob_zipCode := "411001";
             ob_latitude := Some 18.5%float; ob_longitude := Some 73.8%float;
             ob_paymentMethod := "cash" |})).

(** * Properties *)

(** ** Middleware lemmas *)

Lemma auth_bearer (userId : string) (user : User.t) (db : Db) :
  users db !! userId = Some user ->
  User.isActive user = true ->
  auth (Bearer userId) db = inr (userId, user).
Proof. intros Hu Ha. unfold auth. by rewrite Hu, Ha. Qed.

Lemma auth_inr (tok : Token) (db : Db) (userId : string) (user : User.t) :
  auth tok db = inr (userId, user) ->
  tok = Bearer userId /\ users db !! userId = Some user /\ User.isActive user = true.
Proof.
  unfold auth. destruct tok as [| |u]; try discriminate.
  destruct (users db !! u) as [usr|] eqn:Hu; try discriminate.
  destruct (User.isActive usr) eqn:Ha; try discriminate.
  intros [= -> ->]. auto.
Qed.

Lemma is_type_true (t : UserType) (user : User.t) :
  User.userType user = t -> is_type t user = true.
Proof. intros <-. unfold is_type. by apply bool_decide_eq_true. Qed.

Lemma is_type_false (t : UserType) (user : User.t) :
  User.userType user <> t -> is_type t user = false.
Proof. intros H. unfold is_type. by apply bool_decide_eq_false. Qed.

(** ** Accepting an order *)




(** ** The status route *)

(** C10. A driver calls the status route, with a status the validator lets
    through, on a stored order that has no driver: the permission check
    reads [order.driver.toString()] on null, so the reply is the 500
    "Server error updating order status" of the catch block (neither the 403
    nor a 400), nothing is emitted and the store is unchanged. *)
Theorem updateStatus_driver_on_unassigned_order
    (now : Z) (userId orderId : string) (user : User.t) (order : Order.t)
    (body : StatusBody) (db : Db) :
  users db !! userId = Some user ->
  User.isActive user = true ->
  User.userType user = driver ->
  isIn (sb_status body) status_targets = true ->
  orders db !! orderId = Some order ->
  Order.driver order = None ->
  updateStatus now (Bearer userId) orderId body db
  = reply 500 "Server error updating order status" db.
Proof.
  intros Hu Hact Hty Hv Ho Hd. unfold updateStatus.
  rewrite (auth_bearer _ _ _ Hu Hact), Hv, Ho, (is_type_true _ _ Hty), Hd.
  reflexivity.
Qed.

(** Driver d1 reports en route on an order nobody has accepted. *)
Lemma updateStatus_driver_on_unassigned_order_witness :
  updateStatus 2000 (Bearer "d1") oid1 (status_body "driver_en_route")
    (sample_db (sample_order confirmed None paid None))
  = reply 500 "Server error updating order status"
      (sample_db (sample_order confirmed None paid None)).
Proof.
  apply (updateStatus_driver_on_unassigned_order 2000 "d1" oid1 (sample_user driver)
           (sample_order confirmed None paid None)); reflexivity.
Defined.

(** A driver other than the order's driver is turned away with the 403. *)
Lemma updateStatus_other_driver
    (now : Z) (userId orderId d : string) (user : User.t) (order : Order.t)
    (body : StatusBody) (db : Db) :
  users db !! userId = Some user ->
  User.isActive user = true ->
  User.userType user = driver ->
  isIn (sb_status body) status_targets = true ->
  orders db !! orderId = Some order ->
  Order.driver order = Some d ->
  d <> userId ->
  updateStatus now (Bearer userId) orderId body db
  = reply 403 "Not authorized to update this order" db.
Proof.
  intros Hu Hact Hty Hv Ho Hd Hne. unfold updateStatus.
  rewrite (auth_bearer _ _ _ Hu Hact), Hv, Ho, (is_type_true _ _ Hty), Hd.
  apply String.eqb_neq in Hne. rewrite Hne. reflexivity.
Qed.

(** A customer who does not own the order and asks for a status other than
    cancelled is turned away with the 403. *)
Lemma updateStatus_foreign_customer_advance
    (now : Z) (userId orderId : string) (user : User.t) (order : Order.t)
    (body : StatusBody) (db : Db) :
  users db !! userId = Some user ->
  User.isActive user = true ->
  User.userType user = customer ->
  isIn (sb_status body) status_targets = true ->
  orders db !! orderId = Some order ->
  Order.customer order <> userId ->
  sb_status body <> "cancelled" ->
  updateStatus now (Bearer userId) orderId body db
  = reply 403 "Customers can only cancel orders" db.
Proof.
  intros Hu Hact Hty Hv Ho Hne Hs. unfold updateStatus.
  rewrite (auth_bearer _ _ _ Hu Hact), Hv, Ho.
  rewrite (is_type_false driver) by (rewrite Hty; discriminate).
  rewrite (is_type_true _ _ Hty).
  apply String.eqb_neq in Hne, Hs. rewrite Hne, Hs. reflexivity.
Qed.

(** The guard of the customer branch lets every cancellation through: a
    customer who does not own the order cancels it. *)
Lemma updateStatus_foreign_customer_cancel
    (now : Z) (userId orderId : string) (user : User.t) (order : Order.t)
    (body : StatusBody) (db : Db) :
  users db !! userId = Some user ->
  User.isActive user = true ->
  User.userType user = customer ->
  sb_status body = "cancelled" ->
  orders db !! orderId = Some order ->
  is_Some (users db !! Order.customer order) ->
  let out := updateStatus now (Bearer userId) orderId body db in
  response out = Json 200 "Order status updated successfully"
  /\ exists order',
       orders (store out) !! orderId = Some order'
       /\ Order.status order' = cancelled
       /\ (cancelledBy ∘ payload) <$> Tracking.cancelled (Order.tracking order')
          = Some customer.
Proof.
  intros Hu Hact Hty Hs Ho [c Hc] out. subst out. unfold updateStatus.
  rewrite (auth_bearer _ _ _ Hu Hact), Hs, Ho.
  rewrite (is_type_false driver) by (rewrite Hty; discriminate).
  rewrite (is_type_true _ _ Hty). simpl.
  rewrite andb_false_r. simpl. rewrite Hc. simpl.
  split; [reflexivity|]. eexists. split; [apply lookup_insert_eq|].
  simpl. by rewrite Hty.
Qed.

(** The same guard lets the owner through with any status: the customer of
    an order marks it completed. *)
Lemma updateStatus_owner_completes
    (now : Z) (userId orderId : string) (user : User.t) (order : Order.t)
    (body : StatusBody) (db : Db) :
  users db !! userId = Some user ->
  User.isActive user = true ->
  User.userType user = customer ->
  sb_status body = "completed" ->
  orders db !! orderId = Some order ->
  Order.customer order = userId ->
  let out := updateStatus now (Bearer userId) orderId body db in
  response out = Json 200 "Order status updated successfully"
  /\ exists order',
       orders (store out) !! orderId = Some order'
       /\ Order.status order' = completed.
Proof.
  intros Hu Hact Hty Hs Ho Hc out. subst out. unfold updateStatus.
  rewrite (auth_bearer _ _ _ Hu Hact), Hs, Ho.
  rewrite (is_type_false driver) by (rewrite Hty; discriminate).
  rewrite (is_type_true _ _ Hty). simpl.
  rewrite Hc, String.eqb_refl. simpl. rewrite Hu. simpl.
  split; [reflexivity|]. eexists. split; [apply lookup_insert_eq|].
  reflexivity.
Qed.

(** C4, on the code. Customer c2 sends the status cancelled for an order
    placed by customer c1 and assigned to driver d1: the request is not
    rejected but answered 200, and the stored order is cancelled, with
    [cancelledBy] the customer role. *)
Theorem updateStatus_cancels_order_of_another_customer :
  let order := sample_order driver_assigned (Some "d1") paid None in
  let out := updateStatus 2000 (Bearer "c2") oid1 (status_body "cancelled")
               (sample_db order) in
  Order.customer order = "c1"
  /\ response out = Json 200 "Order status updated successfully"
  /\ Order.status <$> orders (store out) !! oid1 = Some cancelled
  /\ store out <> sample_db order.
Proof.
  cbv zeta. split; [reflexivity|]. split; [reflexivity|]. split; [reflexivity|].
  intros H. apply (f_equal (fun d => Order.status <$> orders d !! oid1)) in H.
  discriminate H.
Qed.

(** ** Lookup by payment intent *)

Lemma findOne_by_intent_Some (id : string) (db : Db) (orderId : string) (o : Order.t) :
  findOne_by_intent id db = Some (orderId, o) ->
  orders db !! orderId = Some o
  /\ stripePaymentIntentId (Order.paymentDetails o) = Some id.
Proof.
  unfold findOne_by_intent. intros H.
  apply find_some in H as [Hin Hb].
  apply list_elem_of_In, elem_of_map_to_list in Hin.
  apply bool_decide_eq_true in Hb. auto.
Qed.


(** ** Case analysis of a handler *)

(** Reads the stored order at the id under observation, once the handler's
    branches are split. *)
Ltac at_order H :=
  first
    [ rewrite lookup_insert in H; case_decide; simplify_eq
    | simplify_eq ].

Ltac walk H := repeat case_match; simpl in H; at_order H; auto.

Ltac found_by_intent :=
  match goal with
  | F : findOne_by_intent _ _ = Some _ |- _ =>
      apply findOne_by_intent_Some in F as [? ?]; simplify_eq
  end.

(** ** Tracking milestones *)



(** ** Status transitions *)

Lemma status_of_string_target (s : string) (st : Status) :
  isIn s status_targets = true ->
  status_of_string s = Some st ->
  In st [driver_en_route; arrived; delivering; completed; cancelled].
Proof.
  unfold isIn, status_targets. simpl. intros Hin Hst.
  repeat (apply orb_prop in Hin as [Hin|Hin];
          [apply String.eqb_eq in Hin; subst s; vm_compute in Hst;
           simplify_eq; simpl; tauto|]).
  discriminate.
Qed.

(** From completed the lifecycle goes nowhere. *)
Lemma lifecycle_path_completed (s : Status) :
  lifecycle_path completed s -> s = completed.
Proof.
  unfold lifecycle_path. intros H. remember completed as c eqn:Hc.
  induction H as [|x y z Hxy _ _]; [done|]. subst x.
  destruct Hxy as [Hn|[_ Ht]]; discriminate.
Qed.

(** Turns the boolean tests met along a branch into propositions. *)
Ltac bools :=
  repeat match goal with
         | H : _ || _ = false |- _ => apply orb_false_elim in H as [? ?]
         | H : negb _ = false |- _ => apply negb_false_iff in H
         | H : negb _ = true |- _ => apply negb_true_iff in H
         | H : bool_decide _ = true |- _ => apply bool_decide_eq_true in H
         | H : bool_decide _ = false |- _ => apply bool_decide_eq_false in H
         end.

(** No request removes a stored order. *)
Lemma handle_keeps_orders
    (stripe : Gateway) (now : Z) (req : Request) (db : Db) (orderId : string) :
  is_Some (orders db !! orderId) ->
  is_Some (orders (store (handle stripe now req db)) !! orderId).
Proof.
  intros Ho.
  destruct req; simpl;
    [ unfold createOrder | unfold accept | unfold updateStatus | unfold rate, rated_driver
    | unfold createPaymentIntent | unfold confirmPayment | unfold webhook
    | unfold refund | unfold adminUpdateStatus ];
    repeat case_match; simpl; try done;
    apply lookup_insert_is_Some'; auto.
Qed.

(** The status of a stored order after a request to a route other than the
    admin override: what it was, or what the request writes. *)
Lemma status_step
    (stripe : Gateway) (now : Z) (req : Request) (db : Db)
    (orderId : string) (o : Order.t) :
  is_admin_route req = false ->
  orders db !! orderId = Some o ->
  exists o',
    orders (store (handle stripe now req db)) !! orderId = Some o'
    /\ (Order.status o' = Order.status o
        \/ status_written req orderId (Order.status o) (Order.status o')).
Proof.
  intros Hna Ho.
  destruct (handle_keeps_orders stripe now req db orderId) as [o' H]; [eauto|].
  exists o'. split; [exact H|].
  destruct req; try discriminate Hna; simpl in H; simpl.
  - unfold createOrder in H. walk H.
  - unfold accept in H. walk H.
    all: right; bools; auto.
  - unfold updateStatus in H. walk H.
    all: right; split; [done|].
    all: match goal with
         | V : negb (isIn _ _) = false, P : status_of_string _ = Some ?st |- _ =>
             apply negb_false_iff in V;
             pose proof (status_of_string_target _ _ V P);
             destruct st; simpl; auto
         end.
  - unfold rate, rated_driver in H. walk H.
  - unfold createPaymentIntent in H. walk H.
  - unfold confirmPayment in H. walk H.
  - unfold webhook in H. walk H.
    found_by_intent; auto.
  - unfold refund in H. walk H.
    all: right; bools; auto.
Qed.

(** No written status is pending. *)
Lemma status_written_not_pending (req : Request) (orderId : string) (s : Status) :
  ~ status_written req orderId s pending.
Proof.
  destruct req; simpl; try tauto.
  - intros (_ & _ & ?). discriminate.
  - intros (_ & _ & Hin). simpl in Hin.
    repeat (destruct Hin as [Hin|Hin]; [discriminate|]). done.
  - intros (_ & ?). discriminate.
  - discriminate.
  - intros (_ & _ & ?). discriminate.
Qed.

(** C1, as the code has it. For every request to a route other than the
    admin override and every stored order: the order is still stored after
    the request, and its status is what it was, or was written by the
    request as follows. Accept writes driver_assigned over confirmed only.
    The status route writes the status asked for, one of driver_en_route,
    arrived, delivering, completed, cancelled, over any status. A payment
    confirmation or a webhook success event writes confirmed over any
    status. Refund writes cancelled over any status but completed. No
    request writes pending. *)
Theorem status_written_by_request
    (stripe : Gateway) (now : Z) (req : Request) (db : Db)
    (orderId : string) (o : Order.t) :
  is_admin_route req = false ->
  orders db !! orderId = Some o ->
  exists o',
    orders (store (handle stripe now req db)) !! orderId = Some o'
    /\ (Order.status o' = Order.status o
        \/ status_written req orderId (Order.status o) (Order.status o'))
    /\ (Order.status o' = pending -> Order.status o = pending).
Proof.
  intros Hna Ho.
  destruct (status_step stripe now req db orderId o Hna Ho) as (o' & Ho' & Hst).
  exists o'. split; [exact Ho'|]. split; [exact Hst|].
  intros Hp. destruct Hst as [He|Hw]; [congruence|].
  rewrite Hp in Hw. by apply status_written_not_pending in Hw.
Qed.

(** Along a run of requests to routes other than the admin override, a
    stored order stays stored and never returns to pending. *)
Lemma run_not_back_to_pending
    (stripe : Gateway) (reqs : list (Z * Request)) (db : Db)
    (orderId : string) (o : Order.t) :
  forallb (fun r => negb (is_admin_route r.2)) reqs = true ->
  orders db !! orderId = Some o ->
  exists o',
    orders (run stripe reqs db) !! orderId = Some o'
    /\ (Order.status o' = pending -> Order.status o = pending).
Proof.
  revert db o. induction reqs as [|[now req] reqs IH]; intros db o Hall Ho.
  - simpl. eauto.
  - simpl in Hall. apply andb_true_iff in Hall as [Hna Hall].
    apply negb_true_iff in Hna. simpl in Hna.
    destruct (status_step stripe now req db orderId o Hna Ho) as (o1 & Ho1 & Hst).
    destruct (IH _ _ Hall Ho1) as (o' & Ho' & Hp).
    exists o'. split; [exact Ho'|].
    intros H. apply Hp in H. destruct Hst as [He|Hw]; [congruence|].
    rewrite H in Hw. by apply status_written_not_pending in Hw.
Qed.

(** Driver d1 accepts the confirmed order of c1. *)
Lemma status_written_by_request_witness :
  exists o',
    orders (store (handle sample_stripe 2000 (Accept (Bearer "d1") oid1)
                     (sample_db (sample_order confirmed None paid None))))
      !! oid1 = Some o'
    /\ (Order.status o' = confirmed
        \/ status_written (Accept (Bearer "d1") oid1) oid1 confirmed (Order.status o'))
    /\ (Order.status o' = pending -> confirmed = pending).
Proof.
  apply (status_written_by_request sample_stripe 2000 (Accept (Bearer "d1") oid1)
           (sample_db (sample_order confirmed None paid None)) oid1
           (sample_order confirmed None paid None));
    vm_compute; reflexivity.
Defined.

(** C1, as stated, fails: the assigned driver of a completed order sends the
    status driver_en_route to the status route, which is no admin route, and
    the stored status goes from completed back to driver_en_route, a status
    no lifecycle path reaches from completed. *)
Lemma completed_order_moves_back :
  let reqs := [(2000, UpdateStatus (Bearer "d1") oid1 (status_body "driver_en_route"))] in
  let db := sample_db (sample_order completed (Some "d1") paid None) in
  forallb (fun r => negb (is_admin_route r.2)) reqs = true
  /\ Order.status <$> orders db !! oid1 = Some completed
  /\ Order.status <$> orders (run sample_stripe reqs db) !! oid1 = Some driver_en_route
  /\ ~ lifecycle_path completed driver_en_route.
Proof.
  cbv zeta. repeat split; try (vm_compute; reflexivity).
  intros H. apply lifecycle_path_completed in H. discriminate H.
Qed.

(** ** Refund *)

(** Closes the conjuncts of a branch that are settled by its tests. *)
Ltac closes :=
  repeat split;
  try done;
  try (simpl; tauto);
  try (intros; simplify_eq; done);
  try (match goal with
       | |- _ -> _ /\ _ => let H := fresh in intros H; exfalso; apply H; done
       end);
  try (match goal with H : ~ _ |- _ => exfalso; apply H; done end).

(** C9. Refund on a stored order. A 200 reply implies that the payment
    status was paid and the status was not completed; then the gateway's
    refund was called once, on the order's payment intent, and the stored
    order has payment status refunded, status cancelled and a cancelled
    milestone with the time of the request, the reason and the caller's
    role. Any other reply leaves the store unchanged, with no gateway refund
    and no event; in particular an order that is not paid, or is completed,
    is rejected and unchanged. Conversely an authenticated caller (the owner,
    when a customer) is answered 200 for a paid, not completed order with a
    payment intent the gateway refunds. *)
Theorem refund_only_paid_and_not_completed
    (stripe : Gateway) (now : Z) (tok : Token) (orderId : string)
    (reason : option string) (db : Db) (order : Order.t) :
  orders db !! orderId = Some order ->
  let out := refund stripe now tok orderId reason db in
  (code_of (response out) = 200 ->
     Order.paymentStatus order = paid
     /\ Order.status order <> completed
     /\ exists userId user intentId order',
          auth tok db = inr (userId, user)
          /\ stripePaymentIntentId (Order.paymentDetails order) = Some intentId
          /\ called out = [CreatedRefund intentId]
          /\ orders (store out) = <[orderId := order']> (orders db)
          /\ users (store out) = users db
          /\ Order.paymentStatus order' = refunded
          /\ Order.status order' = cancelled
          /\ Tracking.cancelled (Order.tracking order')
             = Some {| timestamp := now;
                       payload :=
                         {| reason := Some (or_string reason "Refund processed");
                            cancelledBy := User.userType user |} |})
  /\ (code_of (response out) <> 200 ->
        store out = db /\ called out = [] /\ emitted out = [])
  /\ (~ (Order.paymentStatus order = paid /\ Order.status order <> completed) ->
        In (code_of (response out)) [400; 401; 403] /\ store out = db)
  /\ (forall userId user intentId,
        auth tok db = inr (userId, user) ->
        isMongoId orderId = true ->
        (User.userType user = customer -> Order.customer order = userId) ->
        Order.paymentStatus order = paid ->
        Order.status order <> completed ->
        stripePaymentIntentId (Order.paymentDetails order) = Some intentId ->
        intentId <> "" ->
        is_Some (refunds_create stripe intentId) ->
        code_of (response out) = 200).
Proof.
  intros Ho out. subst out. unfold refund. rewrite ?Ho.
  destruct (auth tok db) as [r|[userId user]] eqn:Ha.
  { assert (code_of r = 401) as Hr
      by (unfold auth in Ha; repeat case_match; simplify_eq; done).
    simpl. rewrite Hr. closes. }
  destruct (isMongoId orderId) eqn:Hid; simpl; [|closes].
  destruct (is_type customer user && negb (Order.customer order =? userId)) eqn:Hown;
    simpl.
  { closes. intros u usr i [= <- <-] _ Hc _ _ _ _ _. exfalso.
    apply andb_true_iff in Hown as [Ht Hne].
    apply bool_decide_eq_true in Ht. apply Hc in Ht.
    apply negb_true_iff, String.eqb_neq in Hne. done. }
  destruct (decide (Order.paymentStatus order = paid)) as [Hp|Hp].
  2:{ rewrite (bool_decide_eq_false_2 _ Hp). simpl. closes. }
  rewrite (bool_decide_eq_true_2 _ Hp). simpl.
  destruct (decide (Order.status order = completed)) as [Hs|Hs].
  { rewrite (bool_decide_eq_true_2 _ Hs). simpl. closes. }
  rewrite (bool_decide_eq_false_2 _ Hs).
  destruct (stripePaymentIntentId (Order.paymentDetails order)) as [intentId|] eqn:Hi;
    [|simpl; closes].
  destruct (String.eqb_spec intentId "") as [He|He]; [simpl; closes|].
  destruct (refunds_create stripe intentId) as [rid|] eqn:Hr.
  2:{ simpl. closes. intros ? ? ? _ _ _ _ _ [= <-] _ [? ?]. congruence. }
  simpl. closes.
  exists userId, user, intentId. eexists. repeat split; reflexivity.
Qed.

(** Customer c1 is refunded the paid, confirmed order with intent pi_1. *)
Lemma refund_only_paid_and_not_completed_witness :
  let o := sample_order confirmed None paid (Some "pi_1") in
  code_of (response (refund sample_stripe 3000 (Bearer "c1") oid1 None (sample_db o))) = 200
  /\ Order.paymentStatus o = paid
  /\ Order.status o <> completed.
Proof.
  cbv zeta.
  pose proof (refund_only_paid_and_not_completed sample_stripe 3000 (Bearer "c1")
                oid1 None (sample_db (sample_order confirmed None paid (Some "pi_1")))
                (sample_order confirmed None paid (Some "pi_1"))
                ltac:(vm_compute; reflexivity)) as (H & _).
  assert (code_of (response (refund sample_stripe 3000 (Bearer "c1") oid1 None
            (sample_db (sample_order confirmed None paid (Some "pi_1"))))) = 200) as Hc
    by (vm_compute; reflexivity).
  destruct (H Hc) as (Hp & Hs & _). auto.
Defined.

(** ** Ratings *)

(** No request changes a rating slot whose score is set. *)
Lemma rating_slots_kept
    (stripe : Gateway) (now : Z) (req : Request) (db : Db)
    (orderId : string) (o o' : Order.t) :
  orders db !! orderId = Some o ->
  orders (store (handle stripe now req db)) !! orderId = Some o' ->
  (score_set (Order.customerRating o) = true ->
     Order.customerRating o' = Order.customerRating o)
  /\ (score_set (Order.driverRating o) = true ->
       Order.driverRating o' = Order.driverRating o).
Proof.
  intros Ho H.
  destruct req; simpl in H.
  - unfold createOrder in H. walk H.
  - unfold accept in H. walk H.
  - unfold updateStatus in H. walk H.
    all: match goal with s : Status |- _ => destruct s end; simpl; auto.
  - unfold rate, rated_driver in H. walk H.
    all: split; intros; simpl; congruence.
  - unfold createPaymentIntent in H. walk H.
  - unfold confirmPayment in H. walk H.
  - unfold webhook in H. walk H.
    all: found_by_intent; auto.
  - unfold refund in H. walk H.
  - unfold adminUpdateStatus in H. walk H.
    all: repeat case_match; simpl; auto.
Qed.

Lemma auth_after_rating (d : string) (n : Z) (drv : User.t) (tok : Token)
    (db : Db) (userId : string) (user : User.t) :
  users db !! d = Some drv ->
  auth tok db = inr (userId, user) ->
  exists user',
    auth tok (save_user d (update_driver_rating n drv) db) = inr (userId, user')
    /\ User.userType user' = User.userType user.
Proof.
  intros Hd Ha. apply auth_inr in Ha as (-> & Hu & Hact). simpl.
  destruct (decide (d = userId)) as [->|Hne].
  - rewrite lookup_insert_eq. simplify_eq. simpl. rewrite Hact. eauto.
  - rewrite lookup_insert_ne by done. rewrite Hu, Hact. eauto.
Qed.

(** What a 200 reply of the rate route says about the request and the store. *)
Lemma rate_success (now : Z) (tok : Token) (orderId : string) (body : RateBody)
    (db : Db) (userId : string) (user : User.t) :
  auth tok db = inr (userId, user) ->
  code_of (response (rate now tok orderId body db)) = 200 ->
  exists order,
    orders db !! orderId = Some order
    /\ Order.status order = completed
    /\ 1 <= rb_rating body <= 5
    /\ let slot := {| score := Some (rb_rating body); comment := rb_comment body;
                      ratedAt := Some now |} in
       match User.userType user with
       | customer =>
           Order.customer order = userId
           /\ score_set (Order.customerRating order) = false
           /\ store (rate now tok orderId body db)
              = save now orderId (Order.set_customerRating slot order)
                  (rated_driver (rb_rating body) order db)
       | driver =>
           Order.driver order = Some userId
           /\ score_set (Order.driverRating order) = false
           /\ store (rate now tok orderId body db)
              = save now orderId (Order.set_driverRating slot order) db
       | admin => store (rate now tok orderId body db) = save now orderId order db
       end.
Proof.
  intros Ha. unfold rate. rewrite Ha.
  destruct (1 <=? rb_rating body)%Z eqn:H1; [|discriminate].
  destruct (rb_rating body <=? 5)%Z eqn:H5; [|discriminate]. simpl.
  apply Z.leb_le in H1, H5.
  destruct (orders db !! orderId) as [order|]; [|discriminate].
  case_bool_decide as Hs; [|discriminate]. simpl.
  intros H. exists order. split; [done|]. split; [done|]. split; [lia|].
  destruct (User.userType user); simpl in *.
  - destruct (String.eqb_spec (Order.customer order) userId); [|discriminate].
    simpl in *. destruct (score_set (Order.customerRating order)); [discriminate|].
    unfold rated_driver. simpl. repeat case_match; done.
  - destruct (Order.driver order) as [d|]; [|discriminate].
    destruct (String.eqb_spec d userId); [|discriminate]. subst d.
    simpl in *. destruct (score_set (Order.driverRating order)); [discriminate|].
    done.
  - done.
Qed.

Lemma auth_rated_driver (rating : Z) (order : Order.t) (tok : Token) (db : Db)
    (userId : string) (user : User.t) :
  auth tok db = inr (userId, user) ->
  exists user',
    auth tok (rated_driver rating order db) = inr (userId, user')
    /\ User.userType user' = User.userType user.
Proof.
  intros Ha. unfold rated_driver.
  destruct (Order.driver order) as [d|]; [|eauto].
  destruct (users db !! d) as [drv|] eqn:Hd; [|eauto].
  by apply auth_after_rating.
Qed.

Lemma score_set_valid (n : Z) (c : option string) (t : option Z) :
  1 <= n <= 5 ->
  score_set {| score := Some n; comment := c; ratedAt := t |} = true.
Proof. intros H. unfold score_set. simpl. apply negb_true_iff, Z.eqb_neq. lia. Qed.

(** A participant whose slot is set is told so, with the store unchanged. *)
Lemma rate_already_rated (now : Z) (tok : Token) (orderId : string) (body : RateBody)
    (db : Db) (userId : string) (user : User.t) (order : Order.t) :
  auth tok db = inr (userId, user) ->
  1 <= rb_rating body <= 5 ->
  orders db !! orderId = Some order ->
  Order.status order = completed ->
  match User.userType user with
  | customer => Order.customer order = userId
                /\ score_set (Order.customerRating order) = true
  | driver => Order.driver order = Some userId
              /\ score_set (Order.driverRating order) = true
  | admin => False
  end ->
  rate now tok orderId body db = reply 400 "Order already rated" db.
Proof.
  intros Ha Hv Ho Hs Hrole. unfold rate. rewrite Ha.
  assert ((1 <=? rb_rating body)%Z = true) as -> by (apply Z.leb_le; lia).
  assert ((rb_rating body <=? 5)%Z = true) as -> by (apply Z.leb_le; lia).
  simpl. rewrite Ho, (bool_decide_eq_true_2 _ Hs). simpl.
  destruct (User.userType user); [| |done].
  - destruct Hrole as [-> ->]. by rewrite String.eqb_refl.
  - destruct Hrole as [-> ->]. by rewrite String.eqb_refl.
Qed.

(** C8. A customer or driver whose rating of an order was accepted (reply
    200): the slot of that role holds the score, comment and time of that
    request; a second rating by the same caller, with any valid score, is
    answered 400 "Order already rated" and leaves the store unchanged; and
    no request of any kind changes the slot afterwards. *)
Theorem second_rating_rejected
    (stripe : Gateway) (now1 now2 : Z) (tok : Token) (orderId : string)
    (body1 body2 : RateBody) (db : Db) (userId : string) (user : User.t) :
  auth tok db = inr (userId, user) ->
  User.userType user <> admin ->
  code_of (response (rate now1 tok orderId body1 db)) = 200 ->
  1 <= rb_rating body2 <= 5 ->
  let role := User.userType user in
  let db1 := store (rate now1 tok orderId body1 db) in
  exists order1,
    orders db1 !! orderId = Some order1
    /\ slot_of role order1
       = {| score := Some (rb_rating body1); comment := rb_comment body1;
            ratedAt := Some now1 |}
    /\ rate now2 tok orderId body2 db1 = reply 400 "Order already rated" db1
    /\ forall now req order2,
         orders (store (handle stripe now req db1)) !! orderId = Some order2 ->
         slot_of role order2 = slot_of role order1.
Proof.
  intros Ha Hadm H200 Hv2 role db1.
  destruct (rate_success _ _ _ _ _ _ _ Ha H200) as (order & Ho & Hs & Hv1 & Hst).
  simpl in Hst. subst role db1.
  destruct (User.userType user) eqn:Hty; [| |done].
  - destruct Hst as (Hc & Hempty & ->).
    eexists. split; [apply lookup_insert_eq|]. split; [reflexivity|]. split.
    + destruct (auth_rated_driver (rb_rating body1) order _ _ _ _ Ha)
        as (user' & Ha' & Hty').
      eapply rate_already_rated; [exact Ha' | done | apply lookup_insert_eq | done |].
      rewrite Hty', Hty. simpl. split; [done|]. by apply score_set_valid.
    + intros now req order2 H2.
      eapply (rating_slots_kept stripe now req) in H2 as [H2 _];
        [|apply lookup_insert_eq].
      simpl. apply H2. simpl. by apply score_set_valid.
  - destruct Hst as (Hd & Hempty & ->).
    eexists. split; [apply lookup_insert_eq|]. split; [reflexivity|]. split.
    + eapply rate_already_rated; [exact Ha | done | apply lookup_insert_eq | done |].
      rewrite Hty. simpl. split; [done|]. by apply score_set_valid.
    + intros now req order2 H2.
      eapply (rating_slots_kept stripe now req) in H2 as [_ H2];
        [|apply lookup_insert_eq].
      simpl. apply H2. simpl. by apply score_set_valid.
Qed.

(** Customer c1 rates a delivered order 5 at time 5000, then 1 at time 6000. *)
Lemma second_rating_rejected_witness :
  exists order1,
    orders (store (rate 5000 (Bearer "c1") oid1 (rate_body 5) delivered_db)) !! oid1
    = Some order1
    /\ slot_of customer order1
       = {| score := Some 5; comment := None; ratedAt := Some 5000 |}
    /\ rate 6000 (Bearer "c1") oid1 (rate_body 1)
         (store (rate 5000 (Bearer "c1") oid1 (rate_body 5) delivered_db))
       = reply 400 "Order already rated"
           (store (rate 5000 (Bearer "c1") oid1 (rate_body 5) delivered_db))
    /\ forall now req order2,
         orders (store (handle sample_stripe now req
                          (store (rate 5000 (Bearer "c1") oid1 (rate_body 5) delivered_db))))
           !! oid1 = Some order2 ->
         slot_of customer order2 = slot_of customer order1.
Proof.
  apply (second_rating_rejected sample_stripe 5000 6000 (Bearer "c1") oid1
           (rate_body 5) (rate_body 1) delivered_db "c1" (sample_user customer));
    [ vm_compute; reflexivity | discriminate | vm_compute; reflexivity
    | simpl; lia ].
Defined.

(** ** The driver's running average *)



(** The three ratings sent to the rate route, one per delivered order. *)
Lemma three_ratings_through_the_route :
  let db3 :=
    run sample_stripe
      [ (5000, Rate (Bearer "c1") oid1 (rate_body 5));
        (6000, Rate (Bearer "c1") oid2 (rate_body 3));
        (7000, Rate (Bearer "c1") oid3 (rate_body 4)) ] delivered_db in
  (User.rating ∘ User.driverDetails) <$> users db3 !! "d1" = Some 4%float
  /\ (User.totalRatings ∘ User.driverDetails) <$> users db3 !! "d1" = Some 3%float.
Proof. cbv zeta. split; vm_compute; reflexivity. Qed.


(** ** The price of an order *)



(** The example order of the specification, through the route: the stored
    total and taxes, and the base amount. *)
Lemma example_order_total :
  let out := createOrder 1000 oid1 (Bearer "c1") petrol_body
               {| orders := ∅; users := sample_users |} in
  Order.totalAmount <$> orders (store out) !! oid1 = Some 1176.90%float
  /\ Order.taxes <$> orders (store out) !! oid1 = Some 171.9%float
  /\ (10 * 95.50)%float = 955%float
  /\ response out = Json 201 "Order created successfully".
Proof. cbv zeta. repeat split; vm_compute; reflexivity. Qed.

(** ** Payment reconciliation *)

(** What a 200 reply of confirm-payment says about the request and the
    store. *)
Lemma confirmPayment_success
    (stripe : Gateway) (now : Z) (tok : Token) (paymentIntentId orderId : string)
    (db : Db) :
  code_of (response (confirmPayment stripe now tok paymentIntentId orderId db)) = 200 ->
  exists userId user order paymentIntent,
    auth tok db = inr (userId, user)
    /\ is_type customer user = true
    /\ paymentIntentId <> ""
    /\ isMongoId orderId = true
    /\ orders db !! orderId = Some order
    /\ Order.customer order = userId
    /\ paymentIntents_retrieve stripe paymentIntentId = Some paymentIntent
    /\ pi_status paymentIntent = "succeeded"
    /\ store (confirmPayment stripe now tok paymentIntentId orderId db)
       = save now orderId (mark_paid now (pi_id paymentIntent) order) db.
Proof.
  unfold confirmPayment.
  destruct (auth tok db) as [r|[userId user]] eqn:Ha.
  { unfold auth in Ha. repeat case_match; simplify_eq; discriminate. }
  destruct (is_type customer user) eqn:Hty; [|discriminate]. simpl.
  destruct (String.eqb_spec paymentIntentId ""); [discriminate|].
  destruct (isMongoId orderId) eqn:Hid; [|discriminate]. simpl.
  destruct (orders db !! orderId) as [order|] eqn:Ho; [|discriminate].
  destruct (String.eqb_spec (Order.customer order) userId); [|discriminate]. simpl.
  destruct (paymentIntents_retrieve stripe paymentIntentId) as [paymentIntent|] eqn:Hr;
    [|discriminate].
  destruct (String.eqb_spec (pi_status paymentIntent) "succeeded"); [|discriminate].
  intros _. exists userId, user, order, paymentIntent. repeat split; done.
Qed.

(** Confirm-payment on a store where the caller owns the order and the
    gateway reports the intent succeeded. *)
Lemma confirmPayment_applies
    (stripe : Gateway) (now : Z) (tok : Token) (paymentIntentId orderId : string)
    (db : Db) (userId : string) (user : User.t) (order : Order.t)
    (paymentIntent : PaymentIntent) :
  auth tok db = inr (userId, user) ->
  is_type customer user = true ->
  paymentIntentId <> "" ->
  isMongoId orderId = true ->
  orders db !! orderId = Some order ->
  Order.customer order = userId ->
  paymentIntents_retrieve stripe paymentIntentId = Some paymentIntent ->
  pi_status paymentIntent = "succeeded" ->
  confirmPayment stripe now tok paymentIntentId orderId db
  = {| response := Json 200 "Payment confirmed successfully";
       store := save now orderId (mark_paid now (pi_id paymentIntent) order) db;
       emitted := [ {| room := None; name := "paymentConfirmed";
                       about := orderId; carries := None |} ];
       called := [RetrievedIntent paymentIntentId] |}.
Proof.
  intros Ha Hty Hne Hid Ho Hc Hr Hs. unfold confirmPayment.
  rewrite Ha, Hty, Hid, Ho, Hc, Hr, Hs. apply String.eqb_neq in Hne.
  rewrite Hne, String.eqb_refl. reflexivity.
Qed.




(** * Further properties of the routes *)

(** ** Whole requests: tokens, roles, failures *)

Lemma auth_inl_401 (tok : Token) (db : Db) (r : Response) :
  auth tok db = inl r -> exists msg, r = Json 401 msg.
Proof.
  unfold auth. intros H. repeat case_match; simplify_eq; eauto.
Qed.

Lemma auth_refused (tok : Token) (db : Db) :
  match tok with
  | Bearer u => forall usr, users db !! u = Some usr -> User.isActive usr = false
  | _ => True
  end ->
  exists msg, auth tok db = inl (Json 401 msg).
Proof.
  intros H. unfold auth. destruct tok as [| |u]; eauto.
  destruct (users db !! u) as [usr|] eqn:Hu; eauto.
  rewrite (H usr eq_refl). eauto.
Qed.

(** X1. A request to any route but the webhook that carries no token, an
    invalid token, or the token of a user who is not stored or not active is
    answered 401 by the auth middleware: the store is unchanged, nothing is
    emitted and the gateway is not called. *)
Theorem refused_token_has_no_effect
    (stripe : Gateway) (now : Z) (req : Request) (tok : Token) (db : Db) :
  token_of req = Some tok ->
  match tok with
  | Bearer u => forall usr, users db !! u = Some usr -> User.isActive usr = false
  | _ => True
  end ->
  exists msg, handle stripe now req db = reply 401 msg db.
Proof.
  intros Ht Hr. destruct (auth_refused tok db Hr) as [msg Ha]. exists msg.
  destruct req; simpl in Ht; simplify_eq; simpl;
    [ unfold createOrder | unfold accept | unfold updateStatus | unfold rate
    | unfold createPaymentIntent | unfold confirmPayment | unfold refund
    | unfold adminUpdateStatus ];
    rewrite Ha; reflexivity.
Qed.

(** A deactivated customer tries to place an order. *)
Lemma refused_token_has_no_effect_witness :
  let db := {| orders := ∅;
               users := <["c1" := set_isActive false (sample_user customer)]> sample_users |} in
  exists msg,
    handle sample_stripe 1000 (CreateOrder oid1 (Bearer "c1") petrol_body) db
    = reply 401 msg db.
Proof.
  cbv zeta.
  apply (refused_token_has_no_effect sample_stripe 1000
           (CreateOrder oid1 (Bearer "c1") petrol_body) (Bearer "c1")).
  - reflexivity.
  - intros usr H. vm_compute in H. injection H as <-. reflexivity.
Defined.

(** X2. A route behind [requireCustomer], [requireDriver] or [requireAdmin]
    answers an authenticated caller of another role 403: the store is
    unchanged, nothing is emitted and the gateway is not called. *)
Theorem wrong_role_has_no_effect
    (stripe : Gateway) (now : Z) (req : Request) (tok : Token) (db : Db)
    (userId : string) (user : User.t) (role : UserType) :
  token_of req = Some tok ->
  auth tok db = inr (userId, user) ->
  required_role req = Some role ->
  User.userType user <> role ->
  exists msg, handle stripe now req db = reply 403 msg db.
Proof.
  intros Ht Ha Hrole Hne.
  destruct req; simpl in Ht, Hrole; simplify_eq; simpl;
    [ unfold createOrder | unfold accept
    | unfold createPaymentIntent | unfold confirmPayment
    | unfold adminUpdateStatus ];
    rewrite Ha, (is_type_false _ _ Hne); simpl; eauto.
Qed.

(** A customer calls the admin override. *)
Lemma wrong_role_has_no_effect_witness :
  exists msg,
    handle sample_stripe 2000
      (AdminUpdateStatus (Bearer "c1") oid1 "completed" None)
      (sample_db (sample_order pending None unpaid None))
    = reply 403 msg (sample_db (sample_order pending None unpaid None)).
Proof.
  apply (wrong_role_has_no_effect sample_stripe 2000
           (AdminUpdateStatus (Bearer "c1") oid1 "completed" None) (Bearer "c1")
           (sample_db (sample_order pending None unpaid None))
           "c1" (sample_user customer) admin);
    [reflexivity | vm_compute; reflexivity | reflexivity | discriminate].
Defined.

(** ** Frame lemmas of a request *)

(** An order stored before and after a request has the terms it was placed
    with. *)
Lemma terms_step
    (stripe : Gateway) (now : Z) (req : Request) (db : Db)
    (orderId : string) (o o' : Order.t) :
  orders db !! orderId = Some o ->
  orders (store (handle stripe now req db)) !! orderId = Some o' ->
  terms o' = terms o.
Proof.
  intros Ho H.
  destruct req; simpl in H.
  - unfold createOrder in H. walk H.
  - unfold accept in H. walk H.
  - unfold updateStatus in H. walk H.
    all: match goal with s : Status |- _ => destruct s end; reflexivity.
  - unfold rate, rated_driver in H. walk H.
  - unfold createPaymentIntent in H. walk H.
  - unfold confirmPayment in H. walk H.
  - unfold webhook in H. walk H.
    all: found_by_intent; auto.
  - unfold refund in H. walk H.
  - unfold adminUpdateStatus in H. walk H.
    all: repeat case_match; reflexivity.
Qed.

(** An order stored after a request and not before was placed by it. *)
Lemma fresh_order
    (stripe : Gateway) (now : Z) (req : Request) (db : Db)
    (orderId : string) (o' : Order.t) :
  orders db !! orderId = None ->
  orders (store (handle stripe now req db)) !! orderId = Some o' ->
  exists tok body userId user,
    req = CreateOrder orderId tok body
    /\ auth tok db = inr (userId, user)
    /\ User.userType user = customer
    /\ createOrder_errors body = []
    /\ o' = Order.set_updatedAt now (new_order now userId body).
Proof.
  intros Ho H.
  destruct req; simpl in H.
  - unfold createOrder in H. walk H.
    bools. unfold is_type in *. bools. eauto 10.
  - unfold accept in H. walk H.
  - unfold updateStatus in H. walk H.
  - unfold rate, rated_driver in H. walk H.
  - unfold createPaymentIntent in H. walk H.
  - unfold confirmPayment in H. walk H.
  - unfold webhook in H. walk H.
    all: found_by_intent.
  - unfold refund in H. walk H.
  - unfold adminUpdateStatus in H. walk H.
Qed.

(** The user documents after a request: those before, but for the driver of
    an order whose customer's rating was accepted. *)
Lemma users_after
    (stripe : Gateway) (now : Z) (req : Request) (db : Db) :
  users (store (handle stripe now req db)) = users db
  \/ exists tok orderId body order d drv,
       req = Rate tok orderId body
       /\ code_of (response (handle stripe now req db)) = 200
       /\ orders db !! orderId = Some order
       /\ Order.driver order = Some d
       /\ users db !! d = Some drv
       /\ users (store (handle stripe now req db))
          = <[d := update_driver_rating (rb_rating body) drv]> (users db).
Proof.
  destruct req; simpl.
  - unfold createOrder. repeat case_match; simpl; auto.
  - unfold accept. repeat case_match; simpl; auto.
  - unfold updateStatus. repeat case_match; simpl; auto.
  - unfold rate, rated_driver. repeat case_match; simpl; auto.
    right. eexists _, _, _, _, _, _. repeat split; eauto.
  - unfold createPaymentIntent. repeat case_match; simpl; auto.
  - unfold confirmPayment. repeat case_match; simpl; auto.
  - unfold webhook. repeat case_match; simpl; auto.
  - unfold refund. repeat case_match; simpl; auto.
  - unfold adminUpdateStatus. repeat case_match; simpl; auto.
Qed.

Lemma same_account_refl (u : User.t) : same_account u u.
Proof. by repeat split. Qed.

Lemma same_account_trans (u v w : User.t) :
  same_account u v -> same_account v w -> same_account u w.
Proof.
  unfold same_account. intros (? & ? & ? & ?) (? & ? & ? & ?).
  repeat split; congruence.
Qed.

Lemma same_account_rated (n : Z) (u : User.t) :
  same_account u (update_driver_rating n u).
Proof. by repeat split. Qed.

Lemma users_step
    (stripe : Gateway) (now : Z) (req : Request) (db : Db)
    (u : string) (usr : User.t) :
  users db !! u = Some usr ->
  exists usr',
    users (store (handle stripe now req db)) !! u = Some usr'
    /\ same_account usr usr'.
Proof.
  intros Hu.
  destruct (users_after stripe now req db)
    as [->|(tok & orderId & body & order & d & drv & _ & _ & _ & _ & Hd & ->)].
  - exists usr. split; [done|apply same_account_refl].
  - destruct (decide (d = u)) as [->|Hne].
    + rewrite lookup_insert_eq. simplify_eq. eexists. split; [done|].
      apply same_account_rated.
    + rewrite lookup_insert_ne by done. exists usr.
      split; [done|apply same_account_refl].
Qed.

(** No request stores a new user. *)
Lemma users_not_new
    (stripe : Gateway) (now : Z) (req : Request) (db : Db) (u : string) :
  is_Some (users (store (handle stripe now req db)) !! u) ->
  is_Some (users db !! u).
Proof.
  destruct (users_after stripe now req db)
    as [->|(tok & orderId & body & order & d & drv & _ & _ & _ & _ & Hd & ->)];
    [done|].
  intros H. apply lookup_insert_is_Some' in H as [->|H]; eauto.
Qed.

(** A token accepted before a request is accepted after it, for a user of
    the same role. *)
Lemma auth_step
    (stripe : Gateway) (now : Z) (req : Request) (db : Db)
    (tok : Token) (userId : string) (user : User.t) :
  auth tok db = inr (userId, user) ->
  exists user',
    auth tok (store (handle stripe now req db)) = inr (userId, user')
    /\ same_account user user'.
Proof.
  intros Ha. apply auth_inr in Ha as (-> & Hu & Hact).
  destruct (users_step stripe now req db _ _ Hu) as (user' & Hu' & Hsame).
  exists user'. split; [|done].
  apply auth_bearer; [done|]. destruct Hsame as (_ & -> & _). done.
Qed.

(** X3. Order traffic never changes who a user is: along any run of
    requests, admin override included, no user document is added or
    removed, and each keeps its role, its active flag, its approval and its
    online flag. *)
Theorem run_keeps_accounts
    (stripe : Gateway) (reqs : list (Z * Request)) (db : Db) (u : string) :
  match users db !! u with
  | Some usr =>
      exists usr', users (run stripe reqs db) !! u = Some usr'
                   /\ same_account usr usr'
  | None => users (run stripe reqs db) !! u = None
  end.
Proof.
  revert db. induction reqs as [|[now req] reqs IH]; intros db; simpl.
  - destruct (users db !! u) as [usr|]; [|done].
    exists usr. split; [done|apply same_account_refl].
  - specialize (IH (store (handle stripe now req db))).
    destruct (users db !! u) as [usr|] eqn:Hu.
    + destruct (users_step stripe now req db _ _ Hu) as (usr1 & Hu1 & Hs1).
      rewrite Hu1 in IH. destruct IH as (usr' & Hu' & Hs').
      exists usr'. split; [done|]. by eapply same_account_trans.
    + destruct (users (store (handle stripe now req db)) !! u) as [usr1|] eqn:Hu1;
        [|done].
      destruct (users_not_new stripe now req db u) as [? ?]; [eauto|congruence].
Qed.

(** ** What no request changes *)

(** X4. The terms of an order are fixed when it is placed: along any run of
    requests, admin override included, a stored order stays stored with the
    same customer, fuel type, quantity, unit price, total, delivery fee,
    taxes, payment method and delivery address. *)
Theorem run_keeps_terms
    (stripe : Gateway) (reqs : list (Z * Request)) (db : Db)
    (orderId : string) (o : Order.t) :
  orders db !! orderId = Some o ->
  exists o',
    orders (run stripe reqs db) !! orderId = Some o'
    /\ terms o' = terms o.
Proof.
  revert db o. induction reqs as [|[now req] reqs IH]; intros db o Ho; simpl.
  - eauto.
  - destruct (handle_keeps_orders stripe now req db orderId) as [o1 Ho1]; [eauto|].
    destruct (IH _ _ Ho1) as (o' & Ho' & Ht).
    exists o'. split; [done|].
    rewrite Ht. by eapply terms_step.
Qed.

(** The example order after payment, acceptance, delivery and an admin
    override back to pending. *)
Lemma run_keeps_terms_witness :
  exists o',
    orders (run sample_stripe
              [ (2000, ConfirmPayment (Bearer "c1") "pi_1" oid1);
                (3000, Accept (Bearer "d1") oid1);
                (4000, UpdateStatus (Bearer "d1") oid1 (status_body "completed"));
                (5000, AdminUpdateStatus (Bearer "a1") oid1 "pending" None) ]
              (sample_db (sample_order pending None unpaid None))) !! oid1 = Some o'
    /\ terms o' = terms (sample_order pending None unpaid None).
Proof.
  apply (run_keeps_terms sample_stripe _
           (sample_db (sample_order pending None unpaid None)) oid1).
  vm_compute. reflexivity.
Defined.

(** The driver of an order across one request. *)
Lemma driver_step
    (stripe : Gateway) (now : Z) (req : Request) (db : Db)
    (orderId : string) (o o' : Order.t) :
  orders db !! orderId = Some o ->
  orders (store (handle stripe now req db)) !! orderId = Some o' ->
  Order.driver o' = Order.driver o
  \/ exists tok userId user,
       req = Accept tok orderId
       /\ auth tok db = inr (userId, user)
       /\ User.userType user = driver
       /\ Order.driver o = None
       /\ Order.status o = confirmed
       /\ Order.driver o' = Some userId
       /\ Order.status o' = driver_assigned.
Proof.
  intros Ho H.
  destruct req; simpl in H.
  - unfold createOrder in H. walk H.
  - unfold accept in H. walk H.
    all: right; bools; unfold is_type in *; bools.
    all: match goal with
         | N : ~ is_Some (Order.driver ?o) |- _ =>
             destruct (Order.driver o) eqn:?; [exfalso; apply N; eauto|]
         end.
    all: eexists _, _, _; repeat split; eauto.
  - unfold updateStatus in H. walk H.
    all: match goal with s : Status |- _ => destruct s end; auto.
  - unfold rate, rated_driver in H. walk H.
  - unfold createPaymentIntent in H. walk H.
  - unfold confirmPayment in H. walk H.
  - unfold webhook in H. walk H.
    all: found_by_intent; auto.
  - unfold refund in H. walk H.
  - unfold adminUpdateStatus in H. walk H.
    all: repeat case_match; auto.
Qed.



(** X6. Only accept assigns a driver: when an order without driver has one
    after a request, the request was an accept of that order by an
    authenticated driver, the order was confirmed, the driver is the caller
    and the status is driver_assigned. *)
Theorem driver_assigned_only_by_accept
    (stripe : Gateway) (now : Z) (req : Request) (db : Db)
    (orderId d : string) (o o' : Order.t) :
  orders db !! orderId = Some o ->
  Order.driver o = None ->
  orders (store (handle stripe now req db)) !! orderId = Some o' ->
  Order.driver o' = Some d ->
  exists tok user,
    req = Accept tok orderId
    /\ auth tok db = inr (d, user)
    /\ User.userType user = driver
    /\ Order.status o = confirmed
    /\ Order.status o' = driver_assigned.
Proof.
  intros Ho Hn Ho' Hd.
  destruct (driver_step stripe now req db orderId o o' Ho Ho')
    as [He|(tok & userId & user & -> & Ha & Hty & _ & Hs & Hd' & Hs')].
  - congruence.
  - rewrite Hd in Hd'. injection Hd' as <-. eauto 10.
Qed.

(** Driver d1 accepts the confirmed order. *)
Lemma driver_assigned_only_by_accept_witness :
  exists tok user,
    Accept (Bearer "d1") oid1 = Accept tok oid1
    /\ auth tok (sample_db (sample_order confirmed None paid None)) = inr ("d1", user)
    /\ User.userType user = driver
    /\ Order.status (sample_order confirmed None paid None) = confirmed
    /\ Order.status
         (Order.set_updatedAt 2000
            (Order.set_tracking
               (Tracking.set_driverAssigned
                  (Some {| timestamp := 2000; payload := "d1" |})
                  (Order.tracking (sample_order confirmed None paid None)))
               (Order.set_status driver_assigned
                  (Order.set_driver (Some "d1") (sample_order confirmed None paid None)))))
       = driver_assigned.
Proof.
  apply (driver_assigned_only_by_accept sample_stripe 2000 (Accept (Bearer "d1") oid1)
           (sample_db (sample_order confirmed None paid None)) oid1 "d1"
           (sample_order confirmed None paid None));
    vm_compute; reflexivity.
Defined.

(** ** Stored references and failed requests *)

Lemma customers_stored_step
    (stripe : Gateway) (now : Z) (req : Request) (db : Db) :
  customers_stored db ->
  customers_stored (store (handle stripe now req db)).
Proof.
  intros Hdb orderId o' Ho'.
  assert (is_Some (users db !! Order.customer o')) as [usr Hu].
  { destruct (orders db !! orderId) as [o|] eqn:Ho.
    - pose proof (terms_step stripe now req db orderId o o' Ho Ho') as Ht.
      injection Ht as -> _ _ _ _ _ _ _ _. by eapply Hdb.
    - destruct (fresh_order stripe now req db orderId o' Ho Ho')
        as (tok & body & userId & user & _ & Ha & _ & _ & ->).
      apply auth_inr in Ha as (_ & Hu & _). simpl. eauto. }
  destruct (users_step stripe now req db _ _ Hu) as (usr' & -> & _). eauto.
Qed.

(** X7. Every order's customer stays a stored user: when the store has this
    property, it has it after any run of requests. *)
Theorem run_keeps_customers_stored
    (stripe : Gateway) (reqs : list (Z * Request)) (db : Db) :
  customers_stored db ->
  customers_stored (run stripe reqs db).
Proof.
  revert db. induction reqs as [|[now req] reqs IH]; intros db Hdb; simpl.
  - done.
  - apply IH. by apply customers_stored_step.
Qed.

Lemma sample_db_customers_stored (o : Order.t) :
  Order.customer o = "c1" -> customers_stored (sample_db o).
Proof.
  intros Hc orderId o' H. unfold sample_db in H. simpl in H.
  apply lookup_singleton_Some in H as [_ <-]. rewrite Hc. eexists. reflexivity.
Qed.

(** A new order of customer c2 beside the order of c1. *)
Lemma run_keeps_customers_stored_witness :
  customers_stored
    (run sample_stripe [ (2000, CreateOrder oid2 (Bearer "c2") petrol_body) ]
       (sample_db (sample_order pending None unpaid None))).
Proof.
  apply (run_keeps_customers_stored sample_stripe
           [ (2000, CreateOrder oid2 (Bearer "c2") petrol_body) ]
           (sample_db (sample_order pending None unpaid None))).
  apply sample_db_customers_stored. reflexivity.
Defined.




(** ** Order creation *)



(** ** Payment intents *)

(** What a 200 reply of intent creation says about the request and the
    store. *)
Lemma createPaymentIntent_success
    (stripe : Gateway) (now : Z) (tok : Token) (orderId : string) (db : Db) :
  code_of (response (createPaymentIntent stripe now tok orderId db)) = 200 ->
  exists userId user order intentId,
    auth tok db = inr (userId, user)
    /\ User.userType user = customer
    /\ orders db !! orderId = Some order
    /\ Order.customer order = userId
    /\ Order.paymentStatus order <> paid
    /\ Order.status order <> cancelled
    /\ paymentIntents_create stripe orderId order = Some intentId
    /\ called (createPaymentIntent stripe now tok orderId db) = [CreatedIntent orderId]
    /\ store (createPaymentIntent stripe now tok orderId db)
       = save now orderId
           (Order.set_paymentDetails
              {| transactionId := transactionId (Order.paymentDetails order);
                 stripePaymentIntentId := Some intentId;
                 paidAt := paidAt (Order.paymentDetails order) |} order) db.
Proof.
  unfold createPaymentIntent.
  destruct (auth tok db) as [r|[userId user]] eqn:Ha.
  { destruct (auth_inl_401 _ _ _ Ha) as [msg ->]. discriminate. }
  destruct (is_type customer user) eqn:Hty; [|discriminate]. simpl.
  destruct (isMongoId orderId); [|discriminate]. simpl.
  destruct (orders db !! orderId) as [order|] eqn:Ho; [|discriminate].
  destruct (String.eqb_spec (Order.customer order) userId); [|discriminate]. simpl.
  case_bool_decide as Hp; [discriminate|].
  case_bool_decide as Hs; [discriminate|].
  destruct (paymentIntents_create stripe orderId order) as [intentId|] eqn:Hc;
    [|discriminate].
  intros _. exists userId, user, order, intentId.
  apply bool_decide_eq_true in Hty. repeat split; done.
Qed.

(** X11. A payment intent is created (reply 200) only for the caller's own
    order, and only while it is neither paid nor cancelled; the gateway is
    called once, and of the stored order only the payment intent id changes,
    to the id the gateway gave: status, payment status, transaction id,
    paidAt, driver and tracking stay, as do all other orders and the users. *)
Theorem createPaymentIntent_stores_intent
    (stripe : Gateway) (now : Z) (tok : Token) (orderId : string) (db : Db) :
  code_of (response (createPaymentIntent stripe now tok orderId db)) = 200 ->
  exists userId order order' intentId,
    orders db !! orderId = Some order
    /\ Order.customer order = userId
    /\ (exists user, auth tok db = inr (userId, user))
    /\ Order.paymentStatus order <> paid
    /\ Order.status order <> cancelled
    /\ paymentIntents_create stripe orderId order = Some intentId
    /\ called (createPaymentIntent stripe now tok orderId db) = [CreatedIntent orderId]
    /\ orders (store (createPaymentIntent stripe now tok orderId db))
       = <[orderId := order']> (orders db)
    /\ users (store (createPaymentIntent stripe now tok orderId db)) = users db
    /\ stripePaymentIntentId (Order.paymentDetails order') = Some intentId
    /\ transactionId (Order.paymentDetails order')
       = transactionId (Order.paymentDetails order)
    /\ paidAt (Order.paymentDetails order') = paidAt (Order.paymentDetails order)
    /\ Order.status order' = Order.status order
    /\ Order.paymentStatus order' = Order.paymentStatus order
    /\ Order.driver order' = Order.driver order
    /\ Order.tracking order' = Order.tracking order.
Proof.
  intros H200.
  destruct (createPaymentIntent_success stripe now tok orderId db H200)
    as (userId & user & order & intentId & Ha & _ & Ho & Hc & Hp & Hs & Hi & Hcall & ->).
  exists userId, order. eexists. exists intentId.
  split; [exact Ho|]. split; [exact Hc|]. split; [eauto|].
  split; [exact Hp|]. split; [exact Hs|]. split; [exact Hi|]. split; [exact Hcall|].
  split; [reflexivity|]. repeat split.
Qed.

(** Customer c1 asks for an intent for the pending order. *)
Lemma createPaymentIntent_stores_intent_witness :
  exists userId order order' intentId,
    orders (sample_db (sample_order pending None unpaid None)) !! oid1 = Some order
    /\ Order.customer order = userId
    /\ (exists user, auth (Bearer "c1") (sample_db (sample_order pending None unpaid None))
                     = inr (userId, user))
    /\ Order.paymentStatus order <> paid
    /\ Order.status order <> cancelled
    /\ paymentIntents_create sample_stripe oid1 order = Some intentId
    /\ called (createPaymentIntent sample_stripe 2000 (Bearer "c1") oid1
                 (sample_db (sample_order pending None unpaid None)))
       = [CreatedIntent oid1]
    /\ orders (store (createPaymentIntent sample_stripe 2000 (Bearer "c1") oid1
                        (sample_db (sample_order pending None unpaid None))))
       = <[oid1 := order']> (orders (sample_db (sample_order pending None unpaid None)))
    /\ users (store (createPaymentIntent sample_stripe 2000 (Bearer "c1") oid1
                       (sample_db (sample_order pending None unpaid None))))
       = users (sample_db (sample_order pending None unpaid None))
    /\ stripePaymentIntentId (Order.paymentDetails order') = Some intentId
    /\ transactionId (Order.paymentDetails order')
       = transactionId (Order.paymentDetails order)
    /\ paidAt (Order.paymentDetails order') = paidAt (Order.paymentDetails order)
    /\ Order.status order' = Order.status order
    /\ Order.paymentStatus order' = Order.paymentStatus order
    /\ Order.driver order' = Order.driver order
    /\ Order.tracking order' = Order.tracking order.
Proof.
  apply (createPaymentIntent_stores_intent sample_stripe 2000 (Bearer "c1") oid1
           (sample_db (sample_order pending None unpaid None))).
  vm_compute. reflexivity.
Defined.




(** ** Payment confirmation and the webhook *)

(** X13. Confirm-payment is accepted (reply 200) exactly when the caller is
    a customer, both ids are well formed, the order is the caller's and the
    gateway reports the given intent as succeeded: the order's status, its
    payment status and the intent it carries are not consulted. The given
    intent becomes the transaction id, and the intent the order carries
    stays. *)
Theorem confirmPayment_accepted_iff
    (stripe : Gateway) (now : Z) (tok : Token) (paymentIntentId orderId : string)
    (db : Db) :
  (code_of (response (confirmPayment stripe now tok paymentIntentId orderId db)) = 200
   <-> exists userId user order paymentIntent,
         auth tok db = inr (userId, user)
         /\ User.userType user = customer
         /\ paymentIntentId <> ""
         /\ isMongoId orderId = true
         /\ orders db !! orderId = Some order
         /\ Order.customer order = userId
         /\ paymentIntents_retrieve stripe paymentIntentId = Some paymentIntent
         /\ pi_status paymentIntent = "succeeded")
  /\ forall order paymentIntent,
       code_of (response (confirmPayment stripe now tok paymentIntentId orderId db)) = 200 ->
       orders db !! orderId = Some order ->
       paymentIntents_retrieve stripe paymentIntentId = Some paymentIntent ->
       exists order',
         orders (store (confirmPayment stripe now tok paymentIntentId orderId db))
           !! orderId = Some order'
         /\ transactionId (Order.paymentDetails order') = Some (pi_id paymentIntent)
         /\ stripePaymentIntentId (Order.paymentDetails order')
            = stripePaymentIntentId (Order.paymentDetails order).
Proof.
  split.
  - split.
    + intros H. destruct (confirmPayment_success _ _ _ _ _ _ H)
        as (userId & user & order & pi & Ha & Hty & Hne & Hid & Ho & Hc & Hr & Hs & _).
      apply bool_decide_eq_true in Hty. eauto 12.
    + intros (userId & user & order & pi & Ha & Hty & Hne & Hid & Ho & Hc & Hr & Hs).
      rewrite (confirmPayment_applies stripe now tok paymentIntentId orderId db
                 userId user order pi); auto using is_type_true.
  - intros order pi H Ho Hr.
    destruct (confirmPayment_success _ _ _ _ _ _ H)
      as (userId & user & order0 & pi0 & _ & _ & _ & _ & Ho0 & _ & Hr0 & _ & ->).
    simplify_eq. eexists. split; [apply lookup_insert_eq|]. split; reflexivity.
Qed.

(** Customer c1 confirms the order that carries intent pi_1 with another
    succeeded intent, pi_9: the order is paid, with pi_9 as transaction id
    and pi_1 still the intent it carries. *)
Lemma confirmPayment_with_another_intent :
  let out := confirmPayment sample_stripe 2000 (Bearer "c1") "pi_9" oid1
               (sample_db (sample_order pending None unpaid (Some "pi_1"))) in
  response out = Json 200 "Payment confirmed successfully"
  /\ Order.paymentDetails <$> orders (store out) !! oid1
     = Some {| transactionId := Some "pi_9"; stripePaymentIntentId := Some "pi_1";
               paidAt := Some 2000 |}
  /\ Order.paymentStatus <$> orders (store out) !! oid1 = Some paid.
Proof. cbv zeta. repeat split; vm_compute; reflexivity. Qed.

(** X14. The webhook acts on verified events for known intents only: a
    payload whose signature does not verify is answered 400; a verified
    event of a type other than payment success and payment failure, or for
    an intent no stored order carries, is answered 200; in each case the
    store is unchanged and nothing is emitted. *)
Theorem webhook_ignores
    (stripe : Gateway) (now : Z) (rawBody sig : string) (db : Db) :
  match webhooks_constructEvent stripe rawBody sig with
  | None => webhook stripe now rawBody sig db = reply 400 "Webhook Error" db
  | Some event =>
      ((ev_type event <> "payment_intent.succeeded"
        /\ ev_type event <> "payment_intent.payment_failed")
       \/ (forall k o, orders db !! k = Some o ->
             stripePaymentIntentId (Order.paymentDetails o) <> Some (ev_object event))) ->
      webhook stripe now rawBody sig db = reply 200 "received" db
  end.
Proof.
  unfold webhook.
  destruct (webhooks_constructEvent stripe rawBody sig) as [event|]; [|done].
  intros [[Hs Hf]|Hnone].
  - apply String.eqb_neq in Hs, Hf. by rewrite Hs, Hf.
  - assert (findOne_by_intent (ev_object event) db = None) as ->.
    { destruct (findOne_by_intent (ev_object event) db) as [[k o]|] eqn:Hfind; [|done].
      apply findOne_by_intent_Some in Hfind as [Hk Hi]. by destruct (Hnone k o Hk). }
    by repeat case_match.
Qed.




(** ** Refund, once *)




(** ** The status route, accepted *)

(** What a 200 reply of the status route says about the request and the
    store. *)
Lemma updateStatus_success
    (now : Z) (tok : Token) (orderId : string) (body : StatusBody) (db : Db) :
  code_of (response (updateStatus now tok orderId body db)) = 200 ->
  exists userId user order st,
    auth tok db = inr (userId, user)
    /\ orders db !! orderId = Some order
    /\ status_of_string (sb_status body) = Some st
    /\ In st [driver_en_route; arrived; delivering; completed; cancelled]
    /\ is_Some (users db !! Order.customer order)
    /\ updateStatus now tok orderId body db
       = respond (Json 200 "Order status updated successfully")
           (save now orderId
              (write_milestone now user body st (Order.set_status st order)) db)
           (status_events db orderId
              (write_milestone now user body st (Order.set_status st order)) st).
Proof.
  unfold updateStatus.
  destruct (auth tok db) as [r|[userId user]] eqn:Ha.
  { destruct (auth_inl_401 _ _ _ Ha) as [msg ->]. discriminate. }
  destruct (isIn (sb_status body) status_targets) eqn:Hv; [|discriminate]. simpl.
  destruct (orders db !! orderId) as [order|] eqn:Ho; [|discriminate].
  repeat case_match; simpl; try discriminate.
  all: intros _.
  all: match goal with
       | P : status_of_string _ = Some ?st |- _ =>
           pose proof (status_of_string_target _ _ Hv P) as Hin;
           exists userId, user, order, st
       end.
  all: repeat split; try done.
  all: match goal with
       | H : users _ !! _ = Some _, s : Status |- _ =>
           destruct s; simpl in H; eauto
       end.
Qed.

(** X17. Completion settles cash: when the status route accepts completed
    (reply 200), the stored order is completed, its delivery time is the
    time of the request, and its payment status is paid when the payment
    method is cash and what it was otherwise. When it accepts another
    status, payment status and delivery time stay as they were. *)
Theorem completion_settles_cash
    (now : Z) (tok : Token) (orderId : string) (body : StatusBody) (db : Db)
    (order : Order.t) :
  code_of (response (updateStatus now tok orderId body db)) = 200 ->
  orders db !! orderId = Some order ->
  exists order',
    orders (store (updateStatus now tok orderId body db)) !! orderId = Some order'
    /\ status_of_string (sb_status body) = Some (Order.status order')
    /\ (Order.status order' = completed ->
          Order.actualDeliveryTime order' = Some now
          /\ Order.paymentStatus order'
             = if bool_decide (Order.paymentMethod order = cash) then paid
               else Order.paymentStatus order)
    /\ (Order.status order' <> completed ->
          Order.actualDeliveryTime order' = Order.actualDeliveryTime order
          /\ Order.paymentStatus order' = Order.paymentStatus order).
Proof.
  intros H200 Ho.
  destruct (updateStatus_success _ _ _ _ _ H200)
    as (userId & user & order0 & st & _ & Ho0 & Hst & Hin & _ & ->).
  simplify_eq. simpl. eexists. split; [apply lookup_insert_eq|].
  destruct st; simpl in Hin; try (exfalso; intuition discriminate).
  all: simpl; split; [exact Hst|]; split; intros; try done; split; reflexivity.
Qed.

(** Driver d1 completes the delivery of an order paid in cash on delivery. *)
Lemma completion_settles_cash_witness :
  exists order',
    orders (store (updateStatus 9000 (Bearer "d1") oid1 (status_body "completed")
                     (sample_db cash_order))) !! oid1 = Some order'
    /\ status_of_string "completed" = Some (Order.status order')
    /\ (Order.status order' = completed ->
          Order.actualDeliveryTime order' = Some 9000
          /\ Order.paymentStatus order' = paid)
    /\ (Order.status order' <> completed ->
          Order.actualDeliveryTime order' = None
          /\ Order.paymentStatus order' = unpaid).
Proof.
  exact (completion_settles_cash 9000 (Bearer "d1") oid1 (status_body "completed")
           (sample_db cash_order) cash_order eq_refl eq_refl).
Defined.

(** ** Who is told *)

(** X18. Events go to the parties of the order they are about: whatever the
    request, each event it emits is either sent to every socket, or is about
    an order stored after the request and addressed to the room of that
    order's customer or of that order's driver. Events to every socket are
    the newOrder and paymentConfirmed events only. *)
Theorem events_reach_parties_only
    (stripe : Gateway) (now : Z) (req : Request) (db : Db) (e : Event) :
  In e (emitted (handle stripe now req db)) ->
  match room e with
  | None => name e = "newOrder" \/ name e = "paymentConfirmed"
  | Some r =>
      exists o,
        orders (store (handle stripe now req db)) !! about e = Some o
        /\ (r = customer_room (Order.customer o)
            \/ exists d, Order.driver o = Some d /\ r = driver_room d)
  end.
Proof.
  destruct req; simpl.
  - unfold createOrder. repeat case_match; simpl; try tauto.
    all: intros Hin; repeat (destruct Hin as [<-|Hin]); try done.
    all: simpl in *; simplify_eq; auto.
  - unfold accept. repeat case_match; simpl; try tauto.
    all: intros Hin; repeat (destruct Hin as [<-|Hin]); try done.
    all: simpl in *; simplify_eq.
    all: eexists; (split; [apply lookup_insert_eq|]); auto.
  - unfold updateStatus, status_events. repeat case_match; simpl; try tauto.
    all: intros Hin; repeat (destruct Hin as [<-|Hin]); try done.
    all: simpl in *; simplify_eq.
    all: eexists; (split; [apply lookup_insert_eq|]).
    all: match goal with s : Status |- _ => destruct s end; simpl in *; eauto.
  - unfold rate. repeat case_match; simpl; tauto.
  - unfold createPaymentIntent. repeat case_match; simpl; tauto.
  - unfold confirmPayment. repeat case_match; simpl; try tauto.
    all: intros Hin; repeat (destruct Hin as [<-|Hin]); try done.
    all: simpl in *; simplify_eq; auto.
  - unfold webhook. repeat case_match; simpl; try tauto.
    all: intros Hin; repeat (destruct Hin as [<-|Hin]); try done.
    all: simpl in *; simplify_eq.
    all: eexists; (split; [apply lookup_insert_eq|]); auto.
  - unfold refund. repeat case_match; simpl; try tauto.
    all: intros Hin; repeat (destruct Hin as [<-|Hin]); try done.
    all: simpl in *; simplify_eq.
    all: eexists; (split; [apply lookup_insert_eq|]); auto.
  - unfold adminUpdateStatus, status_events. repeat case_match; simpl; try tauto.
    all: intros Hin; repeat (destruct Hin as [<-|Hin]); try done.
    all: simpl in *; simplify_eq.
    all: eexists; (split; [apply lookup_insert_eq|]).
    all: simpl in *; eauto.
Qed.

(** The assigned driver reports en route: the customer's room is told. *)
Lemma events_reach_parties_only_witness :
  exists o,
    orders (store (handle sample_stripe 2000
                     (UpdateStatus (Bearer "d1") oid1 (status_body "driver_en_route"))
                     (sample_db (sample_order driver_assigned (Some "d1") paid None))))
      !! oid1 = Some o
    /\ (customer_room "c1" = customer_room (Order.customer o)
        \/ exists d, Order.driver o = Some d /\ customer_room "c1" = driver_room d).
Proof.
  apply (events_reach_parties_only sample_stripe 2000
           (UpdateStatus (Bearer "d1") oid1 (status_body "driver_en_route"))
           (sample_db (sample_order driver_assigned (Some "d1") paid None))
           {| room := Some (customer_room "c1"); name := "orderUpdate";
              about := oid1; carries := Some driver_en_route |}).
  vm_compute. left. reflexivity.
Defined.

(** ** The admin override *)




(** ** What a rating leaves alone *)

Lemma orders_rated_driver (n : Z) (o : Order.t) (db : Db) :
  orders (rated_driver n o db) = orders db.
Proof. unfold rated_driver. by repeat case_match. Qed.

(** X20. An accepted rating (reply 200) writes the caller's slot and nothing
    else of the order: status, payment, driver and tracking stay, and so
    does the other role's slot. A driver's or an admin's request changes no
    user document; an admin's fills no slot. *)
Theorem rating_changes_own_slot_only
    (now : Z) (tok : Token) (orderId : string) (body : RateBody) (db : Db)
    (userId : string) (user : User.t) (order : Order.t) :
  auth tok db = inr (userId, user) ->
  code_of (response (rate now tok orderId body db)) = 200 ->
  orders db !! orderId = Some order ->
  exists order',
    orders (store (rate now tok orderId body db)) = <[orderId := order']> (orders db)
    /\ Order.status order' = Order.status order
    /\ Order.paymentStatus order' = Order.paymentStatus order
    /\ Order.paymentDetails order' = Order.paymentDetails order
    /\ Order.driver order' = Order.driver order
    /\ Order.tracking order' = Order.tracking order
    /\ (User.userType user <> customer ->
          Order.customerRating order' = Order.customerRating order
          /\ users (store (rate now tok orderId body db)) = users db)
    /\ (User.userType user <> driver ->
          Order.driverRating order' = Order.driverRating order).
Proof.
  intros Ha H200 Ho.
  destruct (rate_success _ _ _ _ _ _ _ Ha H200) as (order0 & Ho0 & _ & _ & Hst).
  simplify_eq. simpl in Hst.
  destruct (User.userType user) eqn:Hty.
  - destruct Hst as (_ & _ & ->). eexists.
    split; [simpl; rewrite orders_rated_driver; reflexivity|]. repeat split; done.
  - destruct Hst as (_ & _ & ->). eexists. split; [reflexivity|]. repeat split; done.
  - rewrite Hst. eexists. split; [reflexivity|]. repeat split; done.
Qed.

(** Driver d1 rates the customer of a delivered order. *)
Lemma rating_changes_own_slot_only_witness :
  exists order',
    orders (store (rate 5000 (Bearer "d1") oid1 (rate_body 4) delivered_db))
    = <[oid1 := order']> (orders delivered_db)
    /\ Order.status order' = completed
    /\ Order.paymentStatus order' = paid
    /\ Order.paymentDetails order'
       = Order.paymentDetails (sample_order completed (Some "d1") paid None)
    /\ Order.driver order' = Some "d1"
    /\ Order.tracking order'
       = Order.tracking (sample_order completed (Some "d1") paid None)
    /\ (driver <> customer ->
          Order.customerRating order' = empty_slot
          /\ users (store (rate 5000 (Bearer "d1") oid1 (rate_body 4) delivered_db))
             = users delivered_db)
    /\ (driver <> driver -> Order.driverRating order' = empty_slot).
Proof.
  exact (rating_changes_own_slot_only 5000 (Bearer "d1") oid1 (rate_body 4)
           delivered_db "d1" (sample_user driver)
           (sample_order completed (Some "d1") paid None)
           eq_refl eq_refl eq_refl).
Defined.

(** ** Reading an order *)

(** X21. The order details route discloses an order to its parties only: for
    an authenticated caller and a stored order whose customer and driver are
    stored users, the reply is 200 with the order exactly when the caller is
    an admin, the order's customer, or the order's driver, and the 403
    without the order otherwise. *)
Theorem getOrder_discloses_to_parties
    (tok : Token) (orderId : string) (db : Db)
    (userId : string) (user : User.t) (order : Order.t) :
  auth tok db = inr (userId, user) ->
  orders db !! orderId = Some order ->
  is_Some (users db !! Order.customer order) ->
  (forall d, Order.driver order = Some d -> is_Some (users db !! d)) ->
  let party :=
    match User.userType user with
    | admin => True
    | customer => Order.customer order = userId
    | driver => Order.driver order = Some userId
    end in
  (party -> getOrder tok orderId db = (Json 200 "", Some order))
  /\ (~ party ->
      getOrder tok orderId db = (Json 403 "Not authorized to view this order", None)).
Proof.
  intros Ha Ho [c Hc] Hd party. subst party. unfold getOrder, is_type.
  rewrite Ha, Ho, Hc.
  destruct (User.userType user); simpl.
  - destruct (String.eqb_spec (Order.customer order) userId); simpl; split; done.
  - destruct (Order.driver order) as [d|] eqn:Hdr.
    + destruct (Hd d eq_refl) as [? ->].
      destruct (String.eqb_spec d userId) as [->|Hne]; simpl; split; try done.
      intros [= ?]. done.
    + split; done.
  - split; done.
Qed.

(** Customer c2 asks for the order of customer c1; then c1 does. *)
Lemma getOrder_discloses_to_parties_witness :
  getOrder (Bearer "c2") oid1 (sample_db (sample_order confirmed (Some "d1") paid None))
  = (Json 403 "Not authorized to view this order", None)
  /\ getOrder (Bearer "c1") oid1 (sample_db (sample_order confirmed (Some "d1") paid None))
     = (Json 200 "", Some (sample_order confirmed (Some "d1") paid None)).
Proof.
  split.
  - apply (getOrder_discloses_to_parties (Bearer "c2") oid1
             (sample_db (sample_order confirmed (Some "d1") paid None))
             "c2" (sample_user customer)
             (sample_order confirmed (Some "d1") paid None));
      [ reflexivity | reflexivity | eexists; reflexivity
      | intros d [= <-]; eexists; reflexivity | discriminate ].
  - apply (getOrder_discloses_to_parties (Bearer "c1") oid1
             (sample_db (sample_order confirmed (Some "d1") paid None))
             "c1" (sample_user customer)
             (sample_order confirmed (Some "d1") paid None));
      [ reflexivity | reflexivity | eexists; reflexivity
      | intros d [= <-]; eexists; reflexivity | reflexivity ].
Defined.

(** X22. The payment status route checks customers only: for an
    authenticated caller and a stored order, a customer who is not the
    order's customer gets the 403, and every other caller, any driver
    included, gets 200 with the order's payment status, total, payment
    method and payment details. *)
Theorem getPaymentStatus_checks_customers_only
    (tok : Token) (orderId : string) (db : Db)
    (userId : string) (user : User.t) (order : Order.t) :
  auth tok db = inr (userId, user) ->
  orders db !! orderId = Some order ->
  getPaymentStatus tok orderId db
  = if bool_decide (User.userType user = customer /\ Order.customer order <> userId)
    then (Json 403 "Not authorized", None)
    else (Json 200 "",
          Some {| pv_paymentStatus := Order.paymentStatus order;
                  pv_totalAmount := Order.totalAmount order;
                  pv_paymentMethod := Order.paymentMethod order;
                  pv_paymentDetails := Order.paymentDetails order |}).
Proof.
  intros Ha Ho. unfold getPaymentStatus, is_type. rewrite Ha, Ho.
  destruct (String.eqb_spec (Order.customer order) userId) as [He|Hne];
    case_bool_decide as Hty; simpl.
  - rewrite bool_decide_eq_false_2 by tauto. done.
  - rewrite bool_decide_eq_false_2 by tauto. done.
  - rewrite bool_decide_eq_true_2 by tauto. done.
  - rewrite bool_decide_eq_false_2 by tauto. done.
Qed.

(** Driver d2, who is not the order's driver, reads its payment status. *)
Lemma getPaymentStatus_checks_customers_only_witness :
  getPaymentStatus (Bearer "d2") oid1
    (sample_db (sample_order confirmed (Some "d1") paid (Some "pi_1")))
  = (Json 200 "",
     Some {| pv_paymentStatus := paid;
             pv_totalAmount := 1176.90%float;
             pv_paymentMethod := card;
             pv_paymentDetails :=
               {| transactionId := None; stripePaymentIntentId := Some "pi_1";
                  paidAt := None |} |}).
Proof.
  exact (getPaymentStatus_checks_customers_only (Bearer "d2") oid1
           (sample_db (sample_order confirmed (Some "d1") paid (Some "pi_1")))
           "d2" (sample_user driver)
           (sample_order confirmed (Some "d1") paid (Some "pi_1")) eq_refl eq_refl).
Defined.

(** ** Available orders and driver onboarding *)

(** When accept answers 200, for a driver and a stored order whose customer
    is stored. *)
Lemma accept_code
    (now : Z) (tok : Token) (orderId : string) (db : Db)
    (userId : string) (user : User.t) (order : Order.t) :
  auth tok db = inr (userId, user) ->
  User.userType user = driver ->
  orders db !! orderId = Some order ->
  is_Some (users db !! Order.customer order) ->
  code_of (response (accept now tok orderId db)) = 200
  <-> Order.status order = confirmed /\ Order.driver order = None.
Proof.
  intros Ha Hty Ho [c Hc]. unfold accept.
  rewrite Ha, (is_type_true _ _ Hty), Ho. simpl.
  case_bool_decide as Hs; simpl.
  - destruct (Order.driver order) as [d|] eqn:Hd.
    + rewrite bool_decide_eq_true_2 by eauto. simpl.
      split; [discriminate|]. intros [_ ?]. discriminate.
    + rewrite bool_decide_eq_false_2 by (intros [? ?]; discriminate). simpl.
      rewrite Hc. simpl. done.
  - split; [discriminate|]. intros [? _]. done.
Qed.

(** X23. The available orders are the acceptable ones: for an approved,
    online driver, on a store where every order's customer is stored, the
    route answers 200 and lists an order exactly when the same driver's
    accept of it would be answered 200; each listed order is the stored
    one. *)
Theorem available_lists_what_accept_takes
    (now : Z) (tok : Token) (db : Db) (userId : string) (user : User.t) :
  auth tok db = inr (userId, user) ->
  User.userType user = driver ->
  User.isApproved (User.driverDetails user) = true ->
  User.isOnline (User.driverDetails user) = true ->
  customers_stored db ->
  (available tok db).1 = Json 200 ""
  /\ forall orderId,
       (is_Some ((available tok db).2 !! orderId)
        <-> code_of (response (accept now tok orderId db)) = 200)
       /\ (forall o, (available tok db).2 !! orderId = Some o ->
             orders db !! orderId = Some o).
Proof.
  intros Ha Hty Happ Hon Hdb. unfold available.
  rewrite Ha, (is_type_true _ _ Hty), Happ, Hon. simpl.
  split; [reflexivity|]. intros orderId. split.
  - destruct (orders db !! orderId) as [o|] eqn:Ho.
    + rewrite (accept_code now tok orderId db userId user o Ha Hty Ho (Hdb _ _ Ho)).
      split.
      * intros [x Hx]. apply map_lookup_filter_Some in Hx as [Hx Hp].
        simpl in Hp. congruence.
      * intros Hp. exists o. apply map_lookup_filter_Some. done.
    + split.
      * intros [x Hx]. apply map_lookup_filter_Some in Hx as [Hx _]. congruence.
      * unfold accept. rewrite Ha, (is_type_true _ _ Hty), Ho. discriminate.
  - intros o Hx. by apply map_lookup_filter_Some in Hx as [Hx _].
Qed.

(** Driver d1 sees the confirmed order of c1 and could accept it. *)
Lemma available_lists_what_accept_takes_witness :
  (available (Bearer "d1") (sample_db (sample_order confirmed None paid None))).1
  = Json 200 ""
  /\ forall orderId,
       (is_Some ((available (Bearer "d1")
                    (sample_db (sample_order confirmed None paid None))).2 !! orderId)
        <-> code_of (response (accept 2000 (Bearer "d1") orderId
                                 (sample_db (sample_order confirmed None paid None)))) = 200)
       /\ (forall o, (available (Bearer "d1")
                        (sample_db (sample_order confirmed None paid None))).2 !! orderId
                     = Some o ->
             orders (sample_db (sample_order confirmed None paid None)) !! orderId = Some o).
Proof.
  apply (available_lists_what_accept_takes 2000 (Bearer "d1")
           (sample_db (sample_order confirmed None paid None))
           "d1" (sample_user driver));
    [reflexivity | reflexivity | reflexivity | reflexivity |].
  apply sample_db_customers_stored. reflexivity.
Defined.

(** X24. A driver is let in by approval, then by going online. While not
    approved, a driver is refused both the available orders and the online
    switch, with 403. Once an admin has approved the driver, the online
    switch is answered 200; the available orders are refused with 400 while
    the driver is offline and listed after the switch. None of these
    requests changes an order. *)
Theorem driver_onboarding
    (atok dtok : Token) (db : Db) (a d : string) (adm drv : User.t) :
  auth atok db = inr (a, adm) ->
  User.userType adm = admin ->
  auth dtok db = inr (d, drv) ->
  User.userType drv = driver ->
  User.isApproved (User.driverDetails drv) = false ->
  User.isOnline (User.driverDetails drv) = false ->
  let db1 := store (approveDriver atok d true db) in
  let db2 := store (setOnline dtok true db1) in
  (available dtok db).1 = Json 403 "Driver not approved yet"
  /\ setOnline dtok true db = reply 403 "Driver account not approved yet" db
  /\ response (approveDriver atok d true db) = Json 200 "Driver approved successfully"
  /\ (available dtok db1).1 = Json 400 "Driver must be online to view available orders"
  /\ response (setOnline dtok true db1) = Json 200 "Driver status updated to online"
  /\ available dtok db2
     = (Json 200 "",
        filter (fun kv => Order.status kv.2 = confirmed /\ Order.driver kv.2 = None)
          (orders db))
  /\ orders db2 = orders db.
Proof.
  intros Haa Hat Had Hdt Happ Hon db1 db2.
  pose proof Haa as Haa'. apply auth_inr in Haa' as (-> & Hau & Haact).
  pose proof Had as Had'. apply auth_inr in Had' as (-> & Hdu & Hdact).
  assert (approveDriver (Bearer a) d true db
          = respond (Json 200 "Driver approved successfully")
              (save_user d (set_isApproved true drv) db)
              [ {| room := Some (driver_room d); name := "approvalStatusUpdate";
                   about := d; carries := None |} ]) as E1.
  { unfold approveDriver. rewrite Haa, (is_type_true _ _ Hat). simpl.
    rewrite Hdu, (is_type_true _ _ Hdt). reflexivity. }
  assert (auth (Bearer d) db1 = inr (d, set_isApproved true drv)) as Had1.
  { subst db1. rewrite E1. apply auth_bearer; [apply lookup_insert_eq|exact Hdact]. }
  assert (setOnline (Bearer d) true db1
          = respond (Json 200 "Driver status updated to online")
              (save_user d (set_isOnline true (set_isApproved true drv)) db1)
              [ {| room := None; name := "driverStatusChange"; about := d;
                   carries := None |} ]) as E2.
  { unfold setOnline. rewrite Had1. unfold is_type. simpl.
    rewrite (bool_decide_eq_true_2 _ Hdt). reflexivity. }
  assert (auth (Bearer d) db2
          = inr (d, set_isOnline true (set_isApproved true drv))) as Had2.
  { subst db2. rewrite E2. apply auth_bearer; [apply lookup_insert_eq|exact Hdact]. }
  split; [|split; [|split; [|split; [|split; [|split]]]]].
  - unfold available. by rewrite Had, (is_type_true _ _ Hdt), Happ.
  - unfold setOnline. by rewrite Had, (is_type_true _ _ Hdt), Happ.
  - by rewrite E1.
  - unfold available. rewrite Had1. unfold is_type. simpl.
    by rewrite (bool_decide_eq_true_2 _ Hdt), Hon.
  - by rewrite E2.
  - unfold available. rewrite Had2. unfold is_type. simpl.
    rewrite (bool_decide_eq_true_2 _ Hdt). simpl.
    subst db2. rewrite E2. subst db1. rewrite E1. reflexivity.
  - subst db2. rewrite E2. subst db1. rewrite E1. reflexivity.
Qed.

(** Admin a1 approves the new driver d3, who then goes online. *)
Lemma driver_onboarding_witness :
  let db := fleet_db (sample_order confirmed None paid None) in
  let db1 := store (approveDriver (Bearer "a1") "d3" true db) in
  let db2 := store (setOnline (Bearer "d3") true db1) in
  (available (Bearer "d3") db).1 = Json 403 "Driver not approved yet"
  /\ setOnline (Bearer "d3") true db = reply 403 "Driver account not approved yet" db
  /\ response (approveDriver (Bearer "a1") "d3" true db)
     = Json 200 "Driver approved successfully"
  /\ (available (Bearer "d3") db1).1
     = Json 400 "Driver must be online to view available orders"
  /\ response (setOnline (Bearer "d3") true db1)
     = Json 200 "Driver status updated to online"
  /\ available (Bearer "d3") db2
     = (Json 200 "",
        filter (fun kv => Order.status kv.2 = confirmed /\ Order.driver kv.2 = None)
          (orders db))
  /\ orders db2 = orders db.
Proof.
  cbv zeta.
  apply (driver_onboarding (Bearer "a1") (Bearer "d3")
           (fleet_db (sample_order confirmed None paid None))
           "a1" "d3" (sample_user admin) new_driver);
    vm_compute; reflexivity.
Defined.

(** ** Deactivating a user *)



(** ** Location updates *)



(** The events of that update, in full. *)
Lemma location_update_example :
  emitted (updateLocation (Bearer "d1") (Some 18.5%float) (Some 73.8%float)
             (sample_db (sample_order driver_en_route (Some "d1") paid None)))
  = [ {| room := Some "customer_c1"; name := "driverLocationUpdate";
         about := oid1; carries := None |};
      {| room := None; name := "driverLocationUpdate"; about := "d1";
         carries := None |} ].
Proof. vm_compute. reflexivity. Qed.
